(** * functions.py: station extraction, nearest-station locator, DMS conversion

    A shallow embedding of the three functions of [src/functions.py]:

    - [load_mrt_data_from_geojson]: the feature extractor;
    - [get_interactive_map_and_mrt_geojson]: the locator and map builder;
    - [dms_to_dd]: the angle converter.

    Python [float]s are IEEE binary64 numbers and are modelled by Rocq's
    primitive floats, so that NaN, the infinities and rounding behave as
    they do in the program.  Python [str]s are modelled by [string] (texts
    over the code points below 256); values decoded from JSON by the
    inductive type [pyval].

    Two libraries stay outside: the haversine package, whose distance
    function is a parameter of the locator, and folium, whose map object is
    modelled by the record of what the function puts on it. *)

From Stdlib Require Import Floats ZArith List Bool Ascii String Lia.
From Stdlib Require Import DecimalString.
Import ListNotations.

#[local] Set Warnings "-inexact-float,-register-all".
#[local] Open Scope string_scope.
#[local] Open Scope list_scope.

(** ** Python values and exceptions *)

(** What [json.load] can return. A dict is given by its items; [dict_get]
    reads the first item of a key (a Python dict holds one item per key). *)
Inductive pyval : Type :=
| PNone
| PBool (b : bool)
| PInt (z : Z)
| PFloat (f : float)
| PStr (s : string)
| PList (l : list pyval)
| PDict (d : list (string * pyval)).

(** The exception classes that occur in the extractor. *)
Inductive exn : Type :=
| AttributeError
| TypeError
| IndexError
| KeyError
| FileNotFoundError
| JSONDecodeError
| PermissionError
| IsADirectoryError
| UnicodeDecodeError
| RecursionError.

Module Py.

(** A computation that returns a value or raises. *)
Definition M (A : Type) : Type := (exn + A)%type.

Definition ret {A} (a : A) : M A := inr a.
Definition raise {A} (e : exn) : M A := inl e.
Definition bind {A B} (m : M A) (k : A -> M B) : M B :=
  match m with
  | inl e => inl e
  | inr a => k a
  end.

Fixpoint dict_get (d : list (string * pyval)) (key : string) : option pyval :=
  match d with
  | [] => None
  | (k, v) :: d' => if String.eqb k key then Some v else dict_get d' key
  end.

(** [obj.get(key, default)]: only a dict has the method. *)
Definition get (obj : pyval) (key : string) (default : pyval) : M pyval :=
  match obj with
  | PDict d =>
      match dict_get d key with
      | Some v => ret v
      | None => ret default
      end
  | _ => raise AttributeError
  end.

(** Truth value of an object, as [not obj] and [if obj] test it. *)
Definition truthy (v : pyval) : bool :=
  match v with
  | PNone => false
  | PBool b => b
  | PInt z => negb (Z.eqb z 0)
  | PFloat f => negb (PrimFloat.eqb f 0%float)
  | PStr s => negb (String.eqb s "")
  | PList l => match l with [] => false | _ => true end
  | PDict d => match d with [] => false | _ => true end
  end.

(** [v != s] for a string literal [s]. *)
Definition ne_str (v : pyval) (s : string) : bool :=
  match v with
  | PStr s' => negb (String.eqb s' s)
  | _ => true
  end.

Fixpoint str_nth (s : string) (i : nat) : option ascii :=
  match s, i with
  | EmptyString, _ => None
  | String c _, O => Some c
  | String _ s', S i' => str_nth s' i'
  end.

(** [obj[i]] for a literal index [i >= 0]. The keys of a decoded dict are
    strings, so an integer key is never found. *)
Definition index (obj : pyval) (i : nat) : M pyval :=
  match obj with
  | PList l =>
      match nth_error l i with
      | Some v => ret v
      | None => raise IndexError
      end
  | PStr s =>
      match str_nth s i with
      | Some c => ret (PStr (String c EmptyString))
      | None => raise IndexError
      end
  | PDict _ => raise KeyError
  | _ => raise TypeError
  end.

Fixpoint chars (s : string) : list pyval :=
  match s with
  | EmptyString => []
  | String c s' => PStr (String c EmptyString) :: chars s'
  end.

(** The items a [for] loop visits. *)
Definition iter (obj : pyval) : M (list pyval) :=
  match obj with
  | PList l => ret l
  | PStr s => ret (chars s)
  | PDict d => ret (map (fun kv => PStr (fst kv)) d)
  | _ => raise TypeError
  end.

End Py.

Notation "x <- m ;; k" := (Py.bind m (fun x => k))
  (at level 61, m at next level, right associativity).

(** ** Strings: [re.search], [str.strip], [in] *)

Module Str.

Fixpoint starts_with (p s : string) : bool :=
  match p, s with
  | EmptyString, _ => true
  | String a p', String b s' => Ascii.eqb a b && starts_with p' s'
  | String _ _, EmptyString => false
  end.

Fixpoint drop (n : nat) (s : string) : string :=
  match n, s with
  | O, _ => s
  | S n', String _ s' => drop n' s'
  | S _, EmptyString => EmptyString
  end.

(** [sub in s]. *)
Fixpoint contains (sub s : string) : bool :=
  starts_with sub s ||
  match s with
  | EmptyString => false
  | String _ s' => contains sub s'
  end.

Definition newline : ascii := "010"%char.

(** [(.*?)] followed by the literal [close]: the shortest run of
    characters other than newline after which [close] stands. *)
Fixpoint lazy_until (close s : string) : option string :=
  if starts_with close s then Some EmptyString
  else match s with
       | EmptyString => None
       | String c s' =>
           if Ascii.eqb c newline then None
           else option_map (String c) (lazy_until close s')
       end.

(** [re.search] for a pattern [open(.*?)close] made of two literals around
    one lazy group: the leftmost position where the pattern matches, and
    there the group. *)
Fixpoint search_group (open close s : string) : option string :=
  let here :=
    if starts_with open s
    then lazy_until close (drop (String.length open) s)
    else None in
  match here with
  | Some g => Some g
  | None =>
      match s with
      | EmptyString => None
      | String _ s' => search_group open close s'
      end
  end.

(** Characters [str.strip()] removes, among the code points below 256. *)
Definition is_space (c : ascii) : bool :=
  let n := nat_of_ascii c in
  ((9 <=? n) && (n <=? 13) || (28 <=? n) && (n <=? 32)
   || (n =? 133) || (n =? 160))%nat.

Fixpoint lstrip (s : string) : string :=
  match s with
  | EmptyString => EmptyString
  | String c s' => if is_space c then lstrip s' else s
  end.

Fixpoint rstrip (s : string) : string :=
  match s with
  | EmptyString => EmptyString
  | String c s' =>
      match rstrip s' with
      | EmptyString => if is_space c then EmptyString else String c EmptyString
      | r => String c r
      end
  end.

Definition strip (s : string) : string := rstrip (lstrip s).

End Str.

(** ** The feature extractor *)

(** A Station Record as the extractor builds it: [(station_name, (lat, lon))].
    The two coordinates are whatever values the document holds. *)
Definition station : Type := (string * (pyval * pyval))%type.

(** What the extractor prints. *)
Inductive printed : Type :=
| SkippingFeature (e : exn)
| ErrorFileNotFound (geojson_path : string)
| PleaseEnsurePath
| ErrorCouldNotDecode (geojson_path : string).

Definition STATION_NA_open : string := "<th>STATION_NA</th> <td>".
Definition STATION_NA_close : string := "</td>".

(** [re.search(r"<th>STATION_NA<\/th> <td>(.*?)<\/td>", description_html)]:
    [None] when there is no match, the group otherwise; a [TypeError] when the
    argument is not a string. *)
Definition re_search_station (description_html : pyval) : Py.M (option string) :=
  match description_html with
  | PStr s => Py.ret (Str.search_group STATION_NA_open STATION_NA_close s)
  | _ => Py.raise TypeError
  end.

(** The body of the loop, lines 24-42: [inr None] when the feature is passed
    over ([continue], or no station appended), [inr (Some r)] when [r] is
    appended, [inl e] when [e] is raised inside the inner [try]. *)
Definition feature_body (feature : pyval) : Py.M (option station) :=
  properties <- Py.get feature "properties" (PDict []) ;;
  geometry <- Py.get feature "geometry" (PDict []) ;;
  coordinates <- Py.get geometry "coordinates" PNone ;;
  if negb (Py.truthy coordinates) then Py.ret None else
  gtype <- Py.get geometry "type" PNone ;;
  if Py.ne_str gtype "Point" then Py.ret None else
  lon <- Py.index coordinates 0 ;;
  lat <- Py.index coordinates 1 ;;
  description_html <- Py.get properties "Description" (PStr "") ;;
  found <- re_search_station description_html ;;
  match found with
  | Some group1 =>
      let station_name := Str.strip group1 in
      if Str.contains "MRT STATION" station_name
      then Py.ret (Some (station_name, (lat, lon)))
      else Py.ret None
  | None => Py.ret None
  end.

(** The state of the loop: what was printed and [mrt_exits]. *)
Record extractor_state : Type := mkState {
  stdout : list printed;
  mrt_exits : list station
}.

(** One iteration, with the inner [except Exception]. *)
Definition loop_step (st : extractor_state) (feature : pyval) : extractor_state :=
  match feature_body feature with
  | inr (Some r) => mkState (stdout st) (mrt_exits st ++ [r])
  | inr None => st
  | inl e => mkState (stdout st ++ [SkippingFeature e]) (mrt_exits st)
  end.

Definition loop (features : list pyval) (st : extractor_state) : extractor_state :=
  fold_left loop_step features st.

(** How a call ends: it returns a list, or an exception leaves the function. *)
Inductive ending : Type :=
| Returns (stations : list station)
| Propagates (e : exn).

(** [load_mrt_data_from_geojson]. The argument [opened] is what lines 18-19
    ([open] and [json.load]) do on the file at [geojson_path]: they raise, or
    they give the decoded document. *)
Definition load_mrt_data_from_geojson
    (geojson_path : string) (opened : exn + pyval) : list printed * ending :=
  let body : Py.M extractor_state :=
    data <- opened ;;
    features_obj <- Py.get data "features" (PList []) ;;
    features <- Py.iter features_obj ;;
    Py.ret (loop features (mkState [] [])) in
  match body with
  | inr st => (stdout st, Returns (mrt_exits st))
  | inl FileNotFoundError =>
      ([ErrorFileNotFound geojson_path; PleaseEnsurePath], Returns [])
  | inl JSONDecodeError =>
      ([ErrorCouldNotDecode geojson_path], Returns [])
  | inl e => ([], Propagates e)
  end.

(** A point feature as the exits file holds them. *)
Definition sample_feature (coords : pyval) (name : string) : pyval :=
  PDict [("type", PStr "Feature");
         ("properties",
           PDict [("Name", PStr "kml_1");
                  ("Description",
                    PStr ("<center><table><tr><th>STATION_NA</th> <td>"
                          ++ name ++ "</td></tr></table></center>"))]);
         ("geometry", PDict [("type", PStr "Point"); ("coordinates", coords)])].

(** What one feature adds to [mrt_exits], and what it prints. *)
Definition feature_records (feature : pyval) : list station :=
  match feature_body feature with
  | inr (Some r) => [r]
  | _ => []
  end.

Definition feature_printed (feature : pyval) : list printed :=
  match feature_body feature with
  | inl e => [SkippingFeature e]
  | _ => []
  end.

(** A small collection: an accepted exit, a value that is no feature, a
    point with one coordinate, a point that is no rail station, and the first
    exit once more. *)
Definition sample_features : list pyval :=
  [sample_feature (PList [PFloat 103.8; PFloat 1.3]) " ORCHARD MRT STATION ";
   PInt 7;
   sample_feature (PList [PFloat 103.9]) "BEDOK MRT STATION";
   sample_feature (PList [PFloat 103.7; PFloat 1.4]) "SOME LRT STOP";
   sample_feature (PList [PFloat 103.8; PFloat 1.3]) "ORCHARD MRT STATION"].

Definition sample_collection : list (string * pyval) :=
  [("type", PStr "FeatureCollection"); ("features", PList sample_features)].

(** ** The locator and map builder *)

#[local] Open Scope float_scope.

(** A coordinate [(lat, lon)] and an item of [mrt_exits_list]. *)
Definition coord : Type := (float * float)%type.
Definition exit_record : Type := (string * coord)%type.

(** [sum(xs)] on floats: from the start value 0, left to right. *)
Definition py_sum (xs : list float) : float := fold_left PrimFloat.add xs 0.

(** [len(xs)] as the float it becomes when a float is divided by it (the
    conversion is the machine one, for lists of fewer than 2^63 items). *)
Definition py_len {A} (xs : list A) : float :=
  PrimFloat.of_uint63 (Uint63.of_Z (Z.of_nat (List.length xs))).

(** The map object, as the record of what the function puts on it. *)
Record Icon : Type := mkIcon {
  icon_color : string;
  icon_name : string;
  icon_prefix : option string
}.

Inductive layer : Type :=
| Polygon (locations : list coord) (popup color : string) (fill : bool)
          (fill_color : string) (fill_opacity : float)
| Marker (location : coord) (popup : string) (icon : Icon).

Record Map : Type := mkMap {
  map_location : coord;
  zoom_start : Z;
  children : list layer
}.

(** [layer.add_to(m)]. *)
Definition add_to (l : layer) (m : Map) : Map :=
  mkMap (map_location m) (zoom_start m) (children m ++ [l]).

(** [f"{x:.2f}"]: the decimal expansion of [x] rounded to two places, ties on
    the exact binary value going to the even digit. *)
Module Fmt.

(** [m * 2^e * 100] rounded to the nearest integer, ties to even. *)
Definition hundredths (m : positive) (e : Z) : Z :=
  let num := (Z.pos m * 100)%Z in
  if (0 <=? e)%Z then (num * 2 ^ e)%Z
  else
    let den := (2 ^ (- e))%Z in
    let q := (num / den)%Z in
    let r := (num mod den)%Z in
    match (2 * r ?= den)%Z with
    | Lt => q
    | Gt => (q + 1)%Z
    | Eq => if Z.even q then q else (q + 1)%Z
    end.

Definition digits (n : Z) : string :=
  NilZero.string_of_uint (N.to_uint (Z.to_N n)).

Definition two_digits (n : Z) : string :=
  if (n <? 10)%Z then "0" ++ digits n else digits n.

Definition fixed2 (h : Z) : string :=
  digits (h / 100) ++ "." ++ two_digits (h mod 100).

Definition sign (s : bool) : string := if s then "-" else "".

Definition format_2f (x : float) : string :=
  match Prim2SF x with
  | S754_nan => "nan"
  | S754_infinity s => sign s ++ "inf"
  | S754_zero s => sign s ++ "0.00"
  | S754_finite s m e => sign s ++ fixed2 (hundredths m e)
  end.

End Fmt.

Section Locator.

(** [haversine(p, q, unit=Unit.KILOMETERS)] of the haversine package: the
    float it returns. The locator is followed on the calls that the package
    answers; where the package raises, so does the locator, and no result
    is modelled. *)
Variable haversine : coord -> coord -> float.

(** The three variables of the search loop: [nearest_station_name],
    [min_distance], [nearest_station_coords]. *)
Definition nearest : Type := (string * float * option coord)%type.

Definition nearest_init : nearest := ("Unknown", infinity, None).

(** One iteration of the loop at lines 83-88. *)
Definition scan_step (center_point : coord) (acc : nearest) (s : exit_record)
  : nearest :=
  let '(_, min_distance, _) := acc in
  let '(station_name, station_coords) := s in
  let distance := haversine center_point station_coords in
  if distance <? min_distance
  then (station_name, distance, Some station_coords)
  else acc.

Definition scan (center_point : coord) (mrt_exits_list : list exit_record)
  : nearest :=
  fold_left (scan_step center_point) mrt_exits_list nearest_init.

Definition center_of (locations : list coord) : coord :=
  let lats := map fst locations in
  let lons := map snd locations in
  (py_sum lats / py_len locations, py_sum lons / py_len locations).

Definition result_string_of (nearest_station_name : string) (min_distance : float)
  : string :=
  ("The nearest MRT station is: " ++ nearest_station_name
   ++ " (distance: " ++ Fmt.format_2f min_distance ++ " km)")%string.

Definition input_polygon (locations : list coord) : layer :=
  Polygon locations "Input Area" "#3186cc" true "#3186cc" 0.2.

Definition input_marker (loc : coord) : layer :=
  Marker loc "Input Location" (mkIcon "blue" "info-sign" None).

Definition center_marker (center_point : coord) : layer :=
  Marker center_point "Center Point" (mkIcon "green" "star" None).

Definition station_marker (nearest_station_coords : coord)
    (nearest_station_name : string) : layer :=
  Marker nearest_station_coords ("Nearest MRT: " ++ nearest_station_name)%string
    (mkIcon "red" "train" (Some "fa"%string)).

(** Part 3 of the function, lines 93-128: the map a call returns. The map
    library refuses a location that holds a NaN (it raises [ValueError]);
    such a call returns nothing, and this record is not its result. *)
Definition build_map (locations : list coord) (center_point : coord)
    (nearest_station_name : string) (nearest_station_coords : option coord)
  : Map :=
  let m := mkMap center_point 14 [] in
  let m := if (3 <=? List.length locations)%nat
           then add_to (input_polygon locations) m else m in
  let m := fold_left (fun m loc => add_to (input_marker loc) m) locations m in
  let m := add_to (center_marker center_point) m in
  match nearest_station_coords with
  | Some c => add_to (station_marker c nearest_station_name) m
  | None => m
  end.

(** The pair a call returns. Past the two guards the function calls the
    distance package and the map library; where one of them raises (a NaN
    location, a coordinate out of range) the call returns no pair, so what is
    said of the calls that reach the map is said of a returned pair
    [(summary, Some m)]. *)
Definition get_interactive_map_and_mrt_geojson
    (locations : list coord) (mrt_exits_list : list exit_record)
  : string * option Map :=
  match locations with
  | [] => ("Error: No locations provided."%string, None)
  | _ :: _ =>
      match mrt_exits_list with
      | [] => ("Error: No MRT data provided or loaded."%string, None)
      | _ :: _ =>
          let center_point := center_of locations in
          let '(nearest_station_name, min_distance, nearest_station_coords) :=
            scan center_point mrt_exits_list in
          let result_string :=
            result_string_of nearest_station_name min_distance in
          (result_string,
           Some (build_map locations center_point
                   nearest_station_name nearest_station_coords))
      end
  end.

(** What the three loop variables hold once the stations [seen] have been
    visited: either nothing was below infinity and they are untouched, or
    they hold a station of [seen] that none beats and that comes before
    every other one at its distance. *)
Definition scan_inv (center_point : coord) (seen : list exit_record)
    (acc : nearest) : Prop :=
  let '(name, d, found) := acc in
  match found with
  | None =>
      name = "Unknown"%string /\ d = infinity /\
      forall s, In s seen ->
                (haversine center_point (snd s) <? infinity) = false
  | Some coords =>
      exists i,
        nth_error seen i = Some (name, coords) /\
        d = haversine center_point coords /\
        (d <? infinity) = true /\
        (forall j s, nth_error seen j = Some s ->
                     (haversine center_point (snd s) <? d) = false) /\
        (forall j s, nth_error seen j = Some s ->
                     (haversine center_point (snd s) =? d) = true ->
                     (i <= j)%nat)
  end.

End Locator.

(** The layers that are polygons. *)
Definition is_polygon (l : layer) : bool :=
  match l with
  | Polygon _ _ _ _ _ _ => true
  | Marker _ _ _ => false
  end.

Definition polygons (m : Map) : list layer := filter is_polygon (children m).

(** ** The angle converter *)

(** [dms_to_dd], on arguments whose [float(...)] are [degrees], [minutes] and
    [seconds]. *)
Definition dms_to_dd (degrees minutes seconds : float) (direction : string)
  : float :=
  let decimal_degrees := degrees + minutes / 60 + seconds / 3600 in
  if existsb (String.eqb direction) ["S"; "W"; "s"; "w"]%string
  then - decimal_degrees
  else decimal_degrees.

(** ** A distance to run the locator with

    The locator only compares and prints what [haversine] returns. To run it
    on concrete inputs the library is replaced by a distance on the
    equirectangular chart, which like the library's is computed in floating
    point from the four coordinates: 0 between equal points, never negative,
    and NaN as soon as a coordinate is NaN. *)
Definition chart_km (p q : coord) : float :=
  let dlat := fst q - fst p in
  let dlon := snd q - snd p in
  111.195 * PrimFloat.sqrt (dlat * dlat + dlon * dlon).

(** ** The wording of the specification *)

(** "The sum of all values divided by the count": the values are added one
    after the other to a total that starts at 0, and the count is the float
    nearest to the number of values. *)
Fixpoint add_up (total : float) (xs : list float) : float :=
  match xs with
  | [] => total
  | x :: rest => add_up (total + x) rest
  end.

Definition count_of {A} (xs : list A) : float :=
  SF2Prim (binary_normalize prec emax (Z.of_nat (List.length xs)) 0 false).

Definition arithmetic_mean (xs : list float) : float :=
  add_up 0 xs / count_of xs.

(** [sum] in CPython 3.12 and later, for comparison with [py_sum]: floats are
    added with a running compensation (Neumaier). The first item is added to
    the start value, every later one also feeds the low-order bits that the
    addition lost into [c], which is added at the end when it is finite and
    not zero. *)
Definition compensated_step (acc : float * float) (x : float) : float * float :=
  let '(f_result, c) := acc in
  let t := f_result + x in
  if PrimFloat.abs x <=? PrimFloat.abs f_result
  then (t, c + ((f_result - t) + x))
  else (t, c + ((x - t) + f_result)).

Definition py_sum_compensated (xs : list float) : float :=
  match xs with
  | [] => 0
  | x :: rest =>
      let '(f_result, c) := fold_left compensated_step rest (0 + x, 0) in
      if negb (c =? 0) && (PrimFloat.abs c <? infinity)
      then f_result + c else f_result
  end.

(** "A South or West single-character code in either case." *)
Definition to_upper (c : ascii) : ascii :=
  let n := nat_of_ascii c in
  if ((97 <=? n) && (n <=? 122))%nat then ascii_of_nat (n - 32) else c.

Definition south_or_west (direction : string) : bool :=
  match direction with
  | String c EmptyString =>
      Ascii.eqb (to_upper c) "S" || Ascii.eqb (to_upper c) "W"
  | _ => false
  end.

(** "Formatted to exactly two decimal places": an optional sign, one or more
    digits, a point, two digits. *)
Definition is_digit (c : ascii) : bool :=
  let n := nat_of_ascii c in ((48 <=? n) && (n <=? 57))%nat.

Fixpoint all_digits (s : string) : bool :=
  match s with
  | EmptyString => true
  | String c s' => is_digit c && all_digits s'
  end.

Definition two_decimals (s : string) : Prop :=
  exists sgn whole a b,
    s = (sgn ++ whole ++ "." ++ String a (String b EmptyString))%string /\
    (sgn = EmptyString \/ sgn = "-"%string) /\
    whole <> EmptyString /\ all_digits whole = true /\
    is_digit a = true /\ is_digit b = true.

(** The test that [Fmt.two_digits n] is made of two digits. *)
Definition two_digits_ok (n : nat) : bool :=
  match Fmt.two_digits (Z.of_nat n) with
  | String a (String b EmptyString) => is_digit a && is_digit b
  | _ => false
  end.

(** The catalog and the input of the end-to-end scenario. *)
Definition alpha_beta : list exit_record :=
  [("ALPHA MRT STATION"%string, (1.30, 103.80));
   ("BETA MRT STATION"%string, (1.31, 103.81))].

(** Three stations on the meridian of the point (1, 103), the last two at the
    same distance on either side of it; and a catalog without usable
    coordinates. *)
Definition tie_catalog : list exit_record :=
  [("FAR MRT STATION"%string, (3, 103));
   ("NORTH MRT STATION"%string, (1.5, 103));
   ("SOUTH MRT STATION"%string, (0.5, 103))].

Definition nan_catalog : list exit_record :=
  [("ALPHA MRT STATION"%string, (nan, nan))].

(** Two exits of one station at the same coordinates, after a farther
    station: whatever the distance function, the two are at equal distance. *)
Definition twin_catalog : list exit_record :=
  [("FAR MRT STATION"%string, (3, 103));
   ("NORTH MRT STATION EXIT A"%string, (1.5, 103));
   ("NORTH MRT STATION EXIT B"%string, (1.5, 103))].

(** A collection of one point, with the coordinates of the example. *)
Definition one_exit_collection : list (string * pyval) :=
  [("type", PStr "FeatureCollection");
   ("features",
     PList [sample_feature (PList [PFloat 103.8; PFloat 1.3])
                           "ORCHARD MRT STATION"])].

(** ** Notions for the further properties *)

(** A text without line feed, the character the dot of the pattern refuses. *)
Fixpoint newline_free (s : string) : bool :=
  match s with
  | EmptyString => true
  | String c s' => negb (Ascii.eqb c Str.newline) && newline_free s'
  end.

(** A text made of characters that [str.strip()] removes. *)
Fixpoint all_space (s : string) : bool :=
  match s with
  | EmptyString => true
  | String c s' => Str.is_space c && all_space s'
  end.

(** The text begins, or ends, with a character that [str.strip()] removes. *)
Definition leading_space (s : string) : bool :=
  match s with
  | EmptyString => false
  | String c _ => Str.is_space c
  end.

Fixpoint trailing_space (s : string) : bool :=
  match s with
  | EmptyString => false
  | String c s' =>
      match s' with
      | EmptyString => Str.is_space c
      | String _ _ => trailing_space s'
      end
  end.

(** [html] holds a station-name row at [pre], with cell text [cell]. *)
Definition station_row (html pre cell post : string) : Prop :=
  html = (pre ++ STATION_NA_open ++ cell ++ STATION_NA_close ++ post)%string.

(** The station marker is on the map. *)
Definition is_station_marker (l : layer) : bool :=
  match l with
  | Marker _ _ icon => String.eqb (icon_color icon) "red"
  | Polygon _ _ _ _ _ _ => false
  end.

(** The values that have a [get] method, and those a [for] loop accepts. *)
Definition is_dict (v : pyval) : bool :=
  match v with
  | PDict _ => true
  | _ => false
  end.

Definition is_iterable (v : pyval) : bool :=
  match v with
  | PList _ | PStr _ | PDict _ => true
  | _ => false
  end.

(** Inputs for running the locator: three locations, a station without
    usable coordinates, and the catalog of the tie in another order. *)
Definition triangle : list coord := [(1.3, 103.8); (1.4, 103.8); (1.3, 103.9)].

Definition ghost_station : exit_record :=
  ("GHOST MRT STATION"%string, (nan, 103.8)).

Definition tie_catalog_reordered : list exit_record :=
  [("SOUTH MRT STATION"%string, (0.5, 103));
   ("FAR MRT STATION"%string, (3, 103));
   ("NORTH MRT STATION"%string, (1.5, 103));
   ("SOUTH MRT STATION"%string, (0.5, 103))].

(** * Properties *)

(** ** Strings *)

Module StrFacts.

Import Str.

Lemma starts_with_iff (p s : string) :
  starts_with p s = true <-> exists rest, s = (p ++ rest)%string.
Proof.
  revert s. induction p as [|a p IH]; intros s; simpl.
  - split; [intros _; now exists s | reflexivity].
  - destruct s as [|b s]; simpl.
    + split; [discriminate | intros [rest H]; discriminate].
    + rewrite andb_true_iff, Ascii.eqb_eq, IH. split.
      * intros [-> [rest ->]]. now exists rest.
      * intros [rest H]. injection H as -> ->. split; [reflexivity | now exists rest].
Qed.

Lemma contains_iff (sub s : string) :
  contains sub s = true <->
  exists pre post, s = (pre ++ sub ++ post)%string.
Proof.
  induction s as [|c s IH].
  - simpl. rewrite orb_false_r, starts_with_iff. split.
    + intros [rest H]. now exists EmptyString, rest.
    + intros [pre [post H]]. destruct pre; [now exists post | discriminate].
  - change (contains sub (String c s))
      with (starts_with sub (String c s) || contains sub s).
    rewrite orb_true_iff, starts_with_iff, IH. split.
    + intros [[rest H] | [pre [post H]]].
      * now exists EmptyString, rest.
      * exists (String c pre), post. simpl. now rewrite H.
    + intros [pre [post H]]. destruct pre as [|a pre].
      * left. now exists post.
      * right. injection H as _ H. now exists pre, post.
Qed.

End StrFacts.

(** ** The feature extractor *)

Lemma loop_step_app (st : extractor_state) (feature : pyval) :
  loop_step st feature =
  mkState (stdout st ++ feature_printed feature)
          (mrt_exits st ++ feature_records feature).
Proof.
  unfold loop_step, feature_printed, feature_records.
  destruct st as [out acc]; simpl.
  destruct (feature_body feature) as [e | [r |]]; simpl;
    now rewrite ?app_nil_r.
Qed.

Lemma loop_flat_map (features : list pyval) (st : extractor_state) :
  loop features st =
  mkState (stdout st ++ flat_map feature_printed features)
          (mrt_exits st ++ flat_map feature_records features).
Proof.
  unfold loop. revert st.
  induction features as [|f fs IH]; intros st; simpl.
  - destruct st; simpl. now rewrite !app_nil_r.
  - rewrite IH, loop_step_app. simpl. now rewrite !app_assoc.
Qed.

(** A document that decodes to a dict whose [features] can be iterated is
    processed to the end: one pass of the loop body per feature. *)
Lemma load_iterable (geojson_path : string) (d : list (string * pyval))
    (features_obj : pyval) (features : list pyval) :
  Py.get (PDict d) "features" (PList []) = inr features_obj ->
  Py.iter features_obj = inr features ->
  load_mrt_data_from_geojson geojson_path (inr (PDict d)) =
  (flat_map feature_printed features,
   Returns (flat_map feature_records features)).
Proof.
  intros Hget Hiter. unfold load_mrt_data_from_geojson.
  cbn [Py.bind]. rewrite Hget. cbn [Py.bind]. rewrite Hiter. cbn [Py.bind Py.ret].
  now rewrite loop_flat_map.
Qed.

Lemma feature_records_le_1 (feature : pyval) :
  (List.length (feature_records feature) <= 1)%nat.
Proof.
  unfold feature_records.
  destruct (feature_body feature) as [e | [r |]]; simpl; lia.
Qed.

Lemma flat_map_records_length (features : list pyval) :
  (List.length (flat_map feature_records features) <= List.length features)%nat.
Proof.
  induction features as [|f fs IH]; simpl; [lia |].
  rewrite length_app. pose proof (feature_records_le_1 f). lia.
Qed.

(** Inversion of the monadic steps of [feature_body]. *)
Lemma bind_inr {A B} (m : Py.M A) (k : A -> Py.M B) (b : B) :
  Py.bind m k = inr b -> exists a, m = inr a /\ k a = inr b.
Proof.
  destruct m as [e | a]; simpl; [discriminate | intros H; now exists a].
Qed.

Ltac invert_bind H x Hx :=
  apply bind_inr in H; destruct H as [x [Hx H]].

Lemma feature_body_accepts (feature : pyval) (name : string) (lat lon : pyval) :
  feature_body feature = inr (Some (name, (lat, lon))) ->
  exists properties geometry coordinates description_html group1,
    Py.get feature "properties" (PDict []) = inr properties /\
    Py.get feature "geometry" (PDict []) = inr geometry /\
    Py.get geometry "coordinates" PNone = inr coordinates /\
    Py.truthy coordinates = true /\
    Py.get geometry "type" PNone = inr (PStr "Point") /\
    Py.index coordinates 0 = inr lon /\
    Py.index coordinates 1 = inr lat /\
    Py.get properties "Description" (PStr "") = inr (PStr description_html) /\
    Str.search_group STATION_NA_open STATION_NA_close description_html
      = Some group1 /\
    name = Str.strip group1 /\
    Str.contains "MRT STATION" name = true.
Proof.
  unfold feature_body. intros H.
  invert_bind H properties Hp.
  invert_bind H geometry Hg.
  invert_bind H coordinates Hc.
  destruct (Py.truthy coordinates) eqn:Ht; simpl in H; [| discriminate].
  invert_bind H gtype Hty.
  destruct (Py.ne_str gtype "Point") eqn:Hne; [discriminate |].
  invert_bind H lon' Hlon.
  invert_bind H lat' Hlat.
  invert_bind H description Hd.
  invert_bind H found Hf.
  destruct found as [group1 |]; [| discriminate].
  destruct (Str.contains "MRT STATION" (Str.strip group1)) eqn:Hin;
    [| discriminate].
  injection H as <- <- <-.
  destruct description as [| | | | html | |]; try discriminate.
  injection Hf as Hf.
  destruct gtype as [| | | | ty | |]; try discriminate.
  simpl in Hne. apply negb_false_iff, String.eqb_eq in Hne. subst ty.
  exists properties, geometry, coordinates, html, group1.
  repeat split; assumption.
Qed.

Example sample_run :
  load_mrt_data_from_geojson "exits.geojson" (inr (PDict sample_collection))
  = ([SkippingFeature AttributeError; SkippingFeature IndexError],
     Returns [("ORCHARD MRT STATION", (PFloat 1.3, PFloat 103.8));
              ("ORCHARD MRT STATION", (PFloat 1.3, PFloat 103.8))]).
Proof. vm_compute. reflexivity. Qed.

(** A document may hold [NaN] for a coordinate ([json.load] reads it as the
    float NaN); such a point is accepted like any other. *)
Example nan_exit_is_accepted :
  feature_records (sample_feature (PList [PFloat nan; PFloat nan])
                                  "ALPHA MRT STATION")
  = [("ALPHA MRT STATION", (PFloat nan, PFloat nan))].
Proof. vm_compute. reflexivity. Qed.

(** C4 as stated fails: a fault reaches the caller when the document decodes
    to a value that is not an object (here the JSON text [[]], on which
    [data.get] raises outside the inner [try]), and when [open] raises
    anything but [FileNotFoundError] (here the path of a directory). *)
Lemma extractor_fault_reaches_caller :
  load_mrt_data_from_geojson "exits.geojson" (inr (PList []))
    = ([], Propagates AttributeError) /\
  load_mrt_data_from_geojson "exits" (inl IsADirectoryError)
    = ([], Propagates IsADirectoryError).
Proof. split; reflexivity. Qed.

(** C4, amended: a missing file and an undecodable document each give the
    empty list and a printed report; a document that decodes to an object
    whose [features] member is absent or can be iterated is processed to the
    end and the list returned; there a feature whose processing raises is
    reported and adds nothing, and the features before and after it are
    processed as they are without it. *)
Theorem extractor_handled_failures (geojson_path : string) :
  load_mrt_data_from_geojson geojson_path (inl FileNotFoundError)
    = ([ErrorFileNotFound geojson_path; PleaseEnsurePath], Returns []) /\
  load_mrt_data_from_geojson geojson_path (inl JSONDecodeError)
    = ([ErrorCouldNotDecode geojson_path], Returns []) /\
  (forall d features_obj features,
      Py.get (PDict d) "features" (PList []) = inr features_obj ->
      Py.iter features_obj = inr features ->
      load_mrt_data_from_geojson geojson_path (inr (PDict d))
        = (flat_map feature_printed features,
           Returns (flat_map feature_records features))) /\
  (forall d features_obj before feature after e,
      Py.get (PDict d) "features" (PList []) = inr features_obj ->
      Py.iter features_obj = inr (before ++ feature :: after) ->
      feature_body feature = inl e ->
      load_mrt_data_from_geojson geojson_path (inr (PDict d))
        = (flat_map feature_printed before
             ++ SkippingFeature e :: flat_map feature_printed after,
           Returns (flat_map feature_records before
                      ++ flat_map feature_records after))).
Proof.
  split; [reflexivity |]. split; [reflexivity |]. split.
  - intros d fo fs Hget Hiter. now apply load_iterable with fo.
  - intros d fo before f after e Hget Hiter Hraise.
    rewrite (load_iterable geojson_path d fo _ Hget Hiter).
    rewrite !flat_map_app. simpl.
    unfold feature_printed at 2, feature_records at 2. rewrite Hraise.
    reflexivity.
Qed.

Lemma extractor_handled_failures_witness :
  Py.get (PDict sample_collection) "features" (PList [])
    = inr (PList sample_features) /\
  Py.iter (PList sample_features)
    = inr (firstn 1 sample_features ++ PInt 7 :: skipn 2 sample_features) /\
  feature_body (PInt 7) = inl AttributeError /\
  load_mrt_data_from_geojson "exits.geojson" (inr (PDict sample_collection))
    = (flat_map feature_printed (firstn 1 sample_features)
         ++ SkippingFeature AttributeError
              :: flat_map feature_printed (skipn 2 sample_features),
       Returns (flat_map feature_records (firstn 1 sample_features)
                  ++ flat_map feature_records (skipn 2 sample_features))).
Proof.
  split; [reflexivity |]. split; [reflexivity |]. split; [reflexivity |].
  apply (proj2 (proj2 (proj2 (extractor_handled_failures "exits.geojson")))
           sample_collection (PList sample_features)
           (firstn 1 sample_features) (PInt 7) (skipn 2 sample_features)
           AttributeError); reflexivity.
Defined.

(** What the body of the loop needs to append a record: a point with a first
    and a second coordinate and a description whose station-name cell is a
    rail station. *)
Lemma index_truthy (coordinates first : pyval) :
  Py.index coordinates 0 = inr first -> Py.truthy coordinates = true.
Proof.
  destruct coordinates as [| b | z | f | s | l | d]; try discriminate.
  - destruct s; [discriminate | reflexivity].
  - destruct l; [discriminate | reflexivity].
Qed.

Lemma feature_body_yields (feature properties geometry coordinates : pyval)
    (first second : pyval) (html cell : string) :
  Py.get feature "properties" (PDict []) = inr properties ->
  Py.get feature "geometry" (PDict []) = inr geometry ->
  Py.get geometry "type" PNone = inr (PStr "Point") ->
  Py.get geometry "coordinates" PNone = inr coordinates ->
  Py.index coordinates 0 = inr first ->
  Py.index coordinates 1 = inr second ->
  Py.get properties "Description" (PStr "") = inr (PStr html) ->
  Str.search_group STATION_NA_open STATION_NA_close html = Some cell ->
  Str.contains "MRT STATION" (Str.strip cell) = true ->
  feature_body feature = inr (Some (Str.strip cell, (second, first))).
Proof.
  intros Hp Hg Hty Hc H0 H1 Hd Hsearch Hmrt. unfold feature_body.
  rewrite Hp. cbn [Py.bind]. rewrite Hg. cbn [Py.bind].
  rewrite Hc. cbn [Py.bind]. rewrite (index_truthy _ _ H0). cbn [negb].
  rewrite Hty. cbn [Py.bind Py.ne_str]. rewrite String.eqb_refl. cbn [negb].
  rewrite H0. cbn [Py.bind]. rewrite H1. cbn [Py.bind].
  rewrite Hd. cbn [Py.bind re_search_station Py.ret]. rewrite Hsearch.
  now rewrite Hmrt.
Qed.

(** Every record of a returned list was appended for a feature of the
    document. *)
Lemma returned_station_of_feature (geojson_path : string)
    (opened : exn + pyval) (out : list printed) (stations : list station)
    (r : station) :
  load_mrt_data_from_geojson geojson_path opened = (out, Returns stations) ->
  In r stations ->
  exists data features_obj features feature,
    opened = inr data /\
    Py.get data "features" (PList []) = inr features_obj /\
    Py.iter features_obj = inr features /\
    In feature features /\
    feature_body feature = inr (Some r).
Proof.
  unfold load_mrt_data_from_geojson. intros Hload Hin.
  destruct opened as [e | data]; cbn [Py.bind] in Hload.
  { destruct e; inversion Hload; subst; contradiction. }
  destruct (Py.get data "features" (PList [])) as [e | fo] eqn:Hget;
    cbn [Py.bind] in Hload.
  { destruct e; inversion Hload; subst; contradiction. }
  destruct (Py.iter fo) as [e | features] eqn:Hiter;
    cbn [Py.bind Py.ret] in Hload.
  { destruct e; inversion Hload; subst; contradiction. }
  rewrite loop_flat_map in Hload. simpl in Hload. inversion Hload; subst.
  apply in_flat_map in Hin. destruct Hin as (feature & Hf & Hrec).
  exists data, fo, features, feature.
  split; [reflexivity |]. split; [exact Hget |]. split; [exact Hiter |].
  split; [exact Hf |]. unfold feature_records in Hrec.
  destruct (feature_body feature) as [e | [r' |]]; simpl in Hrec;
    try contradiction.
  destruct Hrec as [-> | []]. reflexivity.
Qed.

(** C5: the extractor reads the coordinates of a point longitude first and
    stores them latitude first. A point feature of the document that it
    accepts, with first coordinate [first] and second [second], gives in the
    returned list the record with coordinate [(second, first)], so a list
    [[a, b, ...]] gives [(b, a)]; every record [(name, (lat, lon))] of a
    returned list comes from a point of the document whose first coordinate
    is [lon] and whose second is [lat]; and a collection of one exit with
    coordinates [[103.8, 1.3]] gives the one record with [(1.3, 103.8)]. *)
Theorem coordinate_order_swap :
  (forall geojson_path d features feature properties geometry coordinates
          first second html cell,
      Py.dict_get d "features" = Some (PList features) ->
      In feature features ->
      Py.get feature "properties" (PDict []) = inr properties ->
      Py.get feature "geometry" (PDict []) = inr geometry ->
      Py.get geometry "type" PNone = inr (PStr "Point") ->
      Py.get geometry "coordinates" PNone = inr coordinates ->
      Py.index coordinates 0 = inr first ->
      Py.index coordinates 1 = inr second ->
      Py.get properties "Description" (PStr "") = inr (PStr html) ->
      Str.search_group STATION_NA_open STATION_NA_close html = Some cell ->
      Str.contains "MRT STATION" (Str.strip cell) = true ->
      exists out stations,
        load_mrt_data_from_geojson geojson_path (inr (PDict d))
          = (out, Returns stations) /\
        In (Str.strip cell, (second, first)) stations) /\
  (forall a b rest,
      Py.index (PList (a :: b :: rest)) 0 = inr a /\
      Py.index (PList (a :: b :: rest)) 1 = inr b) /\
  (forall geojson_path opened out stations name lat lon,
      load_mrt_data_from_geojson geojson_path opened
        = (out, Returns stations) ->
      In (name, (lat, lon)) stations ->
      exists data features_obj features feature geometry coordinates,
        opened = inr data /\
        Py.get data "features" (PList []) = inr features_obj /\
        Py.iter features_obj = inr features /\
        In feature features /\
        Py.get feature "geometry" (PDict []) = inr geometry /\
        Py.get geometry "type" PNone = inr (PStr "Point") /\
        Py.get geometry "coordinates" PNone = inr coordinates /\
        Py.index coordinates 0 = inr lon /\
        Py.index coordinates 1 = inr lat) /\
  load_mrt_data_from_geojson "exits.geojson" (inr (PDict one_exit_collection))
  = ([], Returns [("ORCHARD MRT STATION", (PFloat 1.3, PFloat 103.8))]).
Proof.
  split; [| split; [| split]].
  - intros geojson_path d features feature properties geometry coordinates
      first second html cell Hfeat Hin Hp Hg Hty Hc H0 H1 Hd Hsearch Hmrt.
    exists (flat_map feature_printed features),
           (flat_map feature_records features).
    split.
    + apply load_iterable with (PList features); [| reflexivity].
      simpl. now rewrite Hfeat.
    + apply in_flat_map. exists feature. split; [exact Hin |].
      unfold feature_records.
      rewrite (feature_body_yields _ _ _ _ _ _ _ _
                 Hp Hg Hty Hc H0 H1 Hd Hsearch Hmrt).
      now left.
  - intros a b rest. split; reflexivity.
  - intros geojson_path opened out stations name lat lon Hload Hin.
    destruct (returned_station_of_feature _ _ _ _ _ Hload Hin)
      as (data & fo & features & feature & Ho & Hget & Hiter & Hf & Hbody).
    apply feature_body_accepts in Hbody.
    destruct Hbody as (props & geometry & coordinates & html & group1 &
                       _ & Hg & Hc & _ & Hty & Hlon & Hlat & _).
    exists data, fo, features, feature, geometry, coordinates.
    repeat split; assumption.
  - vm_compute. reflexivity.
Qed.

Lemma coordinate_order_swap_witness :
  Py.dict_get sample_collection "features" = Some (PList sample_features) /\
  In (sample_feature (PList [PFloat 103.8; PFloat 1.3]) "ORCHARD MRT STATION")
     sample_features /\
  Py.index (PList [PFloat 103.8; PFloat 1.3]) 0 = inr (PFloat 103.8) /\
  Py.index (PList [PFloat 103.8; PFloat 1.3]) 1 = inr (PFloat 1.3) /\
  exists out stations,
    load_mrt_data_from_geojson "exits.geojson" (inr (PDict sample_collection))
      = (out, Returns stations) /\
    In (Str.strip "ORCHARD MRT STATION", (PFloat 1.3, PFloat 103.8)) stations.
Proof.
  assert (Hin : In (sample_feature (PList [PFloat 103.8; PFloat 1.3])
                      "ORCHARD MRT STATION") sample_features)
    by (do 4 right; left; reflexivity).
  split; [reflexivity |]. split; [exact Hin |].
  split; [reflexivity |]. split; [reflexivity |].
  apply (proj1 coordinate_order_swap "exits.geojson" sample_collection
           sample_features
           (sample_feature (PList [PFloat 103.8; PFloat 1.3])
                           "ORCHARD MRT STATION")
           (PDict [("Name", PStr "kml_1");
                   ("Description",
                     PStr ("<center><table><tr><th>STATION_NA</th> <td>"
                           ++ "ORCHARD MRT STATION"
                           ++ "</td></tr></table></center>"))])
           (PDict [("type", PStr "Point");
                   ("coordinates", PList [PFloat 103.8; PFloat 1.3])])
           (PList [PFloat 103.8; PFloat 1.3])
           (PFloat 103.8) (PFloat 1.3)
           ("<center><table><tr><th>STATION_NA</th> <td>"
            ++ "ORCHARD MRT STATION"
            ++ "</td></tr></table></center>")%string
           "ORCHARD MRT STATION");
    try reflexivity; try exact Hin; vm_compute; reflexivity.
Defined.

(** Coordinates with a third element, and coordinates given as a text, are
    read the same way. *)
Example longer_coordinates_swapped :
  load_mrt_data_from_geojson "exits.geojson"
    (inr (PDict [("features",
                   PList [sample_feature
                            (PList [PFloat 103.8; PFloat 1.3; PInt 0])
                            "ORCHARD MRT STATION";
                          sample_feature (PStr "ab") "BEDOK MRT STATION"])]))
  = ([], Returns [("ORCHARD MRT STATION", (PFloat 1.3, PFloat 103.8));
                  ("BEDOK MRT STATION", (PStr "b", PStr "a"))]).
Proof. vm_compute. reflexivity. Qed.

(** C6: for a collection whose [features] member is a list, the extractor
    returns at most one record per feature, every returned name contains
    ["MRT STATION"], and the output is the concatenation, in the order of the
    features, of what each feature contributes by itself: nothing is sorted
    and nothing is dropped for being equal to an earlier record. *)
Theorem extractor_output_shape
    (geojson_path : string) (d : list (string * pyval)) (features : list pyval) :
  Py.dict_get d "features" = Some (PList features) ->
  exists out stations,
    load_mrt_data_from_geojson geojson_path (inr (PDict d))
      = (out, Returns stations) /\
    (List.length stations <= List.length features)%nat /\
    (forall name c, In (name, c) stations ->
       exists pre post, name = (pre ++ "MRT STATION" ++ post)%string) /\
    stations = flat_map feature_records features /\
    (forall before feature after,
       features = before ++ feature :: after ->
       stations = flat_map feature_records before
                    ++ feature_records feature
                    ++ flat_map feature_records after).
Proof.
  intros Hfeat.
  exists (flat_map feature_printed features),
         (flat_map feature_records features).
  split; [| split; [| split; [| split]]].
  - apply load_iterable with (PList features); [| reflexivity].
    simpl. now rewrite Hfeat.
  - apply flat_map_records_length.
  - intros name c Hin. apply in_flat_map in Hin.
    destruct Hin as [f [_ Hin]]. unfold feature_records in Hin.
    destruct (feature_body f) as [e | [r |]] eqn:Hbody; simpl in Hin;
      try contradiction.
    destruct Hin as [-> | []]. destruct c as [lat lon].
    apply feature_body_accepts in Hbody.
    destruct Hbody as (props & geometry & coordinates & html & group1 &
                       _ & _ & _ & _ & _ & _ & _ & _ & _ & _ & Hin).
    now apply StrFacts.contains_iff.
  - reflexivity.
  - intros before f after ->. rewrite flat_map_app. reflexivity.
Qed.

Lemma extractor_output_shape_witness :
  Py.dict_get sample_collection "features" = Some (PList sample_features) /\
  exists out stations,
    load_mrt_data_from_geojson "exits.geojson" (inr (PDict sample_collection))
      = (out, Returns stations) /\
    (List.length stations <= List.length sample_features)%nat /\
    (forall name c, In (name, c) stations ->
       exists pre post, name = (pre ++ "MRT STATION" ++ post)%string) /\
    stations = flat_map feature_records sample_features /\
    (forall before feature after,
       sample_features = before ++ feature :: after ->
       stations = flat_map feature_records before
                    ++ feature_records feature
                    ++ flat_map feature_records after).
Proof.
  split; [reflexivity |].
  apply (extractor_output_shape "exits.geojson" sample_collection
           sample_features). reflexivity.
Defined.

(** ** The order of floats

    [<] and [==] on floats through their specification [SFcompare]: [<] is
    transitive and irreflexive and compatible with [==]; a NaN is neither
    below, above nor equal to anything. *)

Module FloatOrder.

Lemma pos_compare_cont_eq (p q : positive) :
  Pos.compare_cont Eq p q = Pos.compare p q.
Proof. reflexivity. Qed.

Ltac compare_cases :=
  repeat match goal with
    | |- context [Z.compare ?a ?b] => destruct (Z.compare_spec a b)
    | H : context [Z.compare ?a ?b] |- _ => destruct (Z.compare_spec a b)
    | |- context [Pos.compare ?a ?b] => destruct (Pos.compare_spec a b)
    | H : context [Pos.compare ?a ?b] |- _ => destruct (Pos.compare_spec a b)
    end;
  simpl in *; try discriminate; try reflexivity; try lia.

Lemma SFltb_trans (a b c : spec_float) :
  SFltb a b = true -> SFltb b c = true -> SFltb a c = true.
Proof.
  unfold SFltb, SFcompare.
  destruct a as [[]|[]| |[] ma ea], b as [[]|[]| |[] mb eb],
           c as [[]|[]| |[] mc ec];
    simpl; intros Hab Hbc; try discriminate; try reflexivity;
    rewrite ?pos_compare_cont_eq in *; compare_cases.
Qed.

Lemma SFeqb_ltb_trans (a b c : spec_float) :
  SFeqb a b = true -> SFltb b c = true -> SFltb a c = true.
Proof.
  unfold SFeqb, SFltb, SFcompare.
  destruct a as [[]|[]| |[] ma ea], b as [[]|[]| |[] mb eb],
           c as [[]|[]| |[] mc ec];
    simpl; intros Hab Hbc; try discriminate; try reflexivity;
    rewrite ?pos_compare_cont_eq in *; compare_cases.
Qed.

Lemma SFltb_irrefl (a : spec_float) : SFltb a a = false.
Proof.
  unfold SFltb, SFcompare.
  destruct a as [[]|[]| |[] ma ea]; simpl; try reflexivity;
    rewrite ?pos_compare_cont_eq, Z.compare_refl, Pos.compare_refl;
    reflexivity.
Qed.

Lemma ltb_trans (x y z : float) :
  (x <? y) = true -> (y <? z) = true -> (x <? z) = true.
Proof. rewrite !ltb_spec. apply SFltb_trans. Qed.

Lemma eqb_ltb_trans (x y z : float) :
  (x =? y) = true -> (y <? z) = true -> (x <? z) = true.
Proof. rewrite FloatAxioms.eqb_spec, !ltb_spec. apply SFeqb_ltb_trans. Qed.

Lemma ltb_irrefl (x : float) : (x <? x) = false.
Proof. rewrite ltb_spec. apply SFltb_irrefl. Qed.

(** Nothing is below a value that nothing beats: if [x < y] then whatever
    is not below [y] is not below [x] either, nor equal to it. *)
Lemma not_below_smaller (w x y : float) :
  (x <? y) = true -> (w <? y) = false -> (w <? x) = false.
Proof.
  intros Hxy Hwy. destruct (w <? x) eqn:Hwx; [| reflexivity].
  now rewrite (ltb_trans w x y Hwx Hxy) in Hwy.
Qed.

Lemma not_equal_smaller (w x y : float) :
  (x <? y) = true -> (w <? y) = false -> (w =? x) = false.
Proof.
  intros Hxy Hwy. destruct (w =? x) eqn:Hwx; [| reflexivity].
  now rewrite (eqb_ltb_trans w x y Hwx Hxy) in Hwy.
Qed.

Lemma SFleb_of_not_ltb (a b : spec_float) :
  SFltb a (S754_infinity false) = true ->
  SFltb b (S754_infinity false) = true ->
  SFltb b a = false -> SFleb a b = true.
Proof.
  unfold SFltb, SFleb, SFcompare.
  destruct a as [[]|[]| |[] ma ea], b as [[]|[]| |[] mb eb];
    simpl; intros Ha Hb Hba; try discriminate; try reflexivity;
    rewrite ?pos_compare_cont_eq in *; compare_cases.
Qed.

(** Of two numbers below infinity, the one the other is not below is at most
    the other. *)
Lemma leb_of_not_ltb (x y : float) :
  (x <? infinity) = true -> (y <? infinity) = true ->
  (y <? x) = false -> (x <=? y) = true.
Proof.
  rewrite leb_spec, !ltb_spec.
  change (Prim2SF infinity) with (S754_infinity false).
  apply SFleb_of_not_ltb.
Qed.

End FloatOrder.

(** ** The search loop *)

Section ScanFacts.

Variable haversine : coord -> coord -> float.
Variable center_point : coord.

Lemma scan_snoc (seen : list exit_record) (s : exit_record) :
  scan haversine center_point (seen ++ [s]) =
  scan_step haversine center_point (scan haversine center_point seen) s.
Proof. unfold scan. now rewrite fold_left_app. Qed.

Lemma nth_error_snoc {A} (l : list A) (x y : A) (j : nat) :
  nth_error (l ++ [x]) j = Some y ->
  (j < List.length l)%nat /\ nth_error l j = Some y \/
  j = List.length l /\ y = x.
Proof.
  intros H. destruct (Nat.lt_ge_cases j (List.length l)) as [Hlt | Hge].
  - left. split; [assumption |]. now rewrite nth_error_app1 in H.
  - right. rewrite nth_error_app2 in H by assumption.
    destruct (j - List.length l)%nat as [|k] eqn:Hk; simpl in H.
    + injection H as <-. split; [lia | reflexivity].
    + now destruct k.
Qed.

Lemma scan_inv_step (seen : list exit_record) (acc : nearest) (s : exit_record) :
  scan_inv haversine center_point seen acc ->
  scan_inv haversine center_point (seen ++ [s])
    (scan_step haversine center_point acc s).
Proof.
  destruct acc as [[name d] found], s as [sname scoords].
  unfold scan_inv, scan_step. intros Hinv.
  destruct (haversine center_point scoords <? d) eqn:Hlt.
  - (* the station replaces what was held *)
    assert (Hseen : forall j s', nth_error seen j = Some s' ->
                                 (haversine center_point (snd s') <? d) = false).
    { destruct found as [coords |].
      - destruct Hinv as (i & _ & _ & _ & Hmin & _). exact Hmin.
      - destruct Hinv as (_ & -> & Hnone). intros j s' Hj.
        apply Hnone. now apply nth_error_In with j. }
    assert (Hfin : (haversine center_point scoords <? infinity) = true).
    { destruct found as [coords |].
      - destruct Hinv as (i & _ & _ & Hd & _).
        now apply FloatOrder.ltb_trans with d.
      - destruct Hinv as (_ & -> & _). exact Hlt. }
    exists (List.length seen). split; [| split; [| split; [| split]]].
    + rewrite nth_error_app2 by lia. now rewrite Nat.sub_diag.
    + reflexivity.
    + exact Hfin.
    + intros j s' Hj. apply nth_error_snoc in Hj.
      destruct Hj as [[_ Hj] | [_ ->]].
      * apply FloatOrder.not_below_smaller with d; [exact Hlt |].
        now apply Hseen with j.
      * apply FloatOrder.ltb_irrefl.
    + intros j s' Hj Heq. apply nth_error_snoc in Hj.
      destruct Hj as [[_ Hj] | [-> _]]; [| lia].
      rewrite (FloatOrder.not_equal_smaller (haversine center_point (snd s')) _ d Hlt) in Heq;
        [discriminate |]. now apply Hseen with j.
  - (* the variables are left as they are *)
    destruct found as [coords |].
    + destruct Hinv as (i & Hi & Hd & Hfin & Hmin & Hfirst).
      assert (Hlen : (i < List.length seen)%nat).
      { apply nth_error_Some. now rewrite Hi. }
      exists i. split; [| split; [| split; [| split]]]; try assumption.
      * now rewrite nth_error_app1.
      * intros j s' Hj. apply nth_error_snoc in Hj.
        destruct Hj as [[_ Hj] | [_ ->]]; [now apply Hmin with j | exact Hlt].
      * intros j s' Hj Heq. apply nth_error_snoc in Hj.
        destruct Hj as [[_ Hj] | [-> _]]; [now apply Hfirst with s' | lia].
    + destruct Hinv as (Hname & Hd & Hnone).
      split; [assumption |]. split; [assumption |].
      intros s' Hin. apply in_app_iff in Hin.
      destruct Hin as [Hin | [<- | []]]; [now apply Hnone |].
      subst d. exact Hlt.
Qed.

Lemma scan_invariant (seen : list exit_record) :
  scan_inv haversine center_point seen (scan haversine center_point seen).
Proof.
  induction seen as [| s seen IH] using rev_ind.
  - simpl. repeat split. intros s [].
  - rewrite scan_snoc. now apply scan_inv_step.
Qed.

End ScanFacts.

(** ** The map *)

Lemma add_markers_children (locations : list coord) (m : Map) :
  children (fold_left (fun m loc => add_to (input_marker loc) m) locations m)
  = children m ++ map input_marker locations.
Proof.
  revert m. induction locations as [| loc locs IH]; intros m; simpl.
  - now rewrite app_nil_r.
  - rewrite IH. simpl. now rewrite <- app_assoc.
Qed.

Lemma add_markers_location (locations : list coord) (m : Map) :
  map_location
    (fold_left (fun m loc => add_to (input_marker loc) m) locations m)
  = map_location m.
Proof.
  revert m. induction locations as [| loc locs IH]; intros m; simpl;
    [reflexivity | now rewrite IH].
Qed.

(** The layers of the map, in the order they are added. *)
Lemma build_map_children (locations : list coord) (center_point : coord)
    (name : string) (found : option coord) :
  children (build_map locations center_point name found)
  = (if (3 <=? List.length locations)%nat
     then [input_polygon locations] else [])
    ++ map input_marker locations
    ++ [center_marker center_point]
    ++ match found with
       | Some c => [station_marker c name]
       | None => []
       end.
Proof.
  unfold build_map.
  destruct found as [c |]; cbn [add_to children];
    rewrite add_markers_children;
    destruct (3 <=? List.length locations)%nat; cbn [add_to children];
    rewrite <- ?app_assoc; simpl; now rewrite ?app_nil_r.
Qed.

Lemma build_map_location (locations : list coord) (center_point : coord)
    (name : string) (found : option coord) :
  map_location (build_map locations center_point name found) = center_point.
Proof.
  unfold build_map.
  destruct found as [c |]; cbn [add_to map_location];
    rewrite add_markers_location;
    now destruct (3 <=? List.length locations)%nat.
Qed.

Lemma no_polygon_among_markers (locations : list coord) :
  filter is_polygon (map input_marker locations) = [].
Proof.
  induction locations as [| loc locs IH]; simpl; [reflexivity | exact IH].
Qed.

Lemma build_map_polygons (locations : list coord) (center_point : coord)
    (name : string) (found : option coord) :
  polygons (build_map locations center_point name found)
  = if (3 <=? List.length locations)%nat
    then [input_polygon locations] else [].
Proof.
  unfold polygons. rewrite build_map_children, !filter_app.
  rewrite no_polygon_among_markers.
  destruct (3 <=? List.length locations)%nat, found; reflexivity.
Qed.

(** A successful call: both arguments are non-empty and the map is the one
    built around the centroid for what the search loop found. *)
Lemma locator_success (haversine : coord -> coord -> float)
    (locations : list coord) (mrt_exits_list : list exit_record)
    (summary : string) (m : Map) :
  get_interactive_map_and_mrt_geojson haversine locations mrt_exits_list
    = (summary, Some m) ->
  locations <> [] /\ mrt_exits_list <> [] /\
  exists name d found,
    scan haversine (center_of locations) mrt_exits_list = (name, d, found) /\
    summary = result_string_of name d /\
    m = build_map locations (center_of locations) name found.
Proof.
  unfold get_interactive_map_and_mrt_geojson.
  destruct locations as [| loc locs]; [discriminate |].
  destruct mrt_exits_list as [| s cat]; [discriminate |].
  destruct (scan haversine (center_of (loc :: locs)) (s :: cat))
    as [[name d] found] eqn:Hscan.
  intros H. injection H as <- <-.
  split; [discriminate |]. split; [discriminate |].
  now exists name, d, found.
Qed.

Lemma locator_runs (haversine : coord -> coord -> float)
    (loc : coord) (locs : list coord) (s : exit_record) (cat : list exit_record)
    (name : string) (d : float) (found : option coord) :
  scan haversine (center_of (loc :: locs)) (s :: cat) = (name, d, found) ->
  get_interactive_map_and_mrt_geojson haversine (loc :: locs) (s :: cat)
    = (result_string_of name d,
       Some (build_map (loc :: locs) (center_of (loc :: locs)) name found)).
Proof.
  intros Hscan. unfold get_interactive_map_and_mrt_geojson.
  now rewrite Hscan.
Qed.

(** ** The locator *)

(** ** The centroid *)

Lemma fold_add_up (xs : list float) (total : float) :
  fold_left PrimFloat.add xs total = add_up total xs.
Proof.
  revert total. induction xs as [| x xs IH]; intros total; simpl;
    [reflexivity | apply IH].
Qed.

(** The machine conversion of a number below 2^63 gives the float nearest to
    it. *)
Lemma of_uint63_nearest (z : Z) :
  (0 <= z < 2 ^ 63)%Z ->
  PrimFloat.of_uint63 (Uint63.of_Z z)
  = SF2Prim (binary_normalize prec emax z 0 false).
Proof.
  intros Hz.
  rewrite <- (SF2Prim_Prim2SF (PrimFloat.of_uint63 (Uint63.of_Z z))).
  rewrite of_uint63_spec, Uint63.of_Z_spec.
  rewrite Z.mod_small; [reflexivity |].
  change Uint63.wB with (2 ^ 63)%Z. exact Hz.
Qed.

Lemma py_len_count_of {A} (xs : list A) :
  (Z.of_nat (List.length xs) < 2 ^ 63)%Z -> py_len xs = count_of xs.
Proof.
  intros Hlen. unfold py_len, count_of. apply of_uint63_nearest. lia.
Qed.

Lemma center_of_means (locations : list coord) :
  (Z.of_nat (List.length locations) < 2 ^ 63)%Z ->
  center_of locations
  = (arithmetic_mean (map fst locations), arithmetic_mean (map snd locations)).
Proof.
  intros Hlen. unfold center_of, arithmetic_mean, py_sum.
  rewrite !fold_add_up, (py_len_count_of locations Hlen).
  unfold count_of. now rewrite !length_map.
Qed.

Section LocatorClaims.

Variable haversine : coord -> coord -> float.

(** C2: with no input location the locator returns an error text and no map,
    whatever the catalog; with input locations and an empty catalog it
    returns another error text and no map; the two texts differ. *)
Theorem empty_arguments_rejected :
  (forall mrt_exits_list,
      get_interactive_map_and_mrt_geojson haversine [] mrt_exits_list
      = ("Error: No locations provided."%string, None)) /\
  (forall loc locs,
      get_interactive_map_and_mrt_geojson haversine (loc :: locs) []
      = ("Error: No MRT data provided or loaded."%string, None)) /\
  "Error: No locations provided."%string
    <> "Error: No MRT data provided or loaded."%string.
Proof.
  split; [reflexivity |]. split; [reflexivity | discriminate].
Qed.

(** C10: when both arguments are empty the result is the one for empty
    input locations, which is not the one for an empty catalog, and there is
    no map. *)
Theorem empty_locations_checked_first :
  get_interactive_map_and_mrt_geojson haversine [] []
    = ("Error: No locations provided."%string, None) /\
  fst (get_interactive_map_and_mrt_geojson haversine [] [])
    <> "Error: No MRT data provided or loaded."%string /\
  snd (get_interactive_map_and_mrt_geojson haversine [] []) = None.
Proof.
  split; [reflexivity |]. split; [discriminate | reflexivity].
Qed.

(** C3: the centroid the locator computes has as latitude the sum of the
    input latitudes divided by their number and as longitude the same for
    the longitudes (a list has fewer than 2^63 items); on a successful call the map is centred on that point,
    the centre marker stands at it and the distances of the search are
    measured from it. For [(1.0, 103.0), (1.2, 103.2)] the point is
    [(1.1, 103.1)], also when the sum is the compensated one; one location
    is its own centroid, and three locations are divided by three. *)
Theorem centroid_is_mean :
  (forall locations,
      (Z.of_nat (List.length locations) < 2 ^ 63)%Z ->
      center_of locations
      = (arithmetic_mean (map fst locations),
         arithmetic_mean (map snd locations))) /\
  (forall locations mrt_exits_list summary m,
      (Z.of_nat (List.length locations) < 2 ^ 63)%Z ->
      get_interactive_map_and_mrt_geojson haversine locations mrt_exits_list
        = (summary, Some m) ->
      let centroid := (arithmetic_mean (map fst locations),
                       arithmetic_mean (map snd locations)) in
      map_location m = centroid /\
      In (center_marker centroid) (children m) /\
      exists name d found,
        scan haversine centroid mrt_exits_list = (name, d, found) /\
        summary = result_string_of name d /\
        m = build_map locations centroid name found) /\
  (forall mrt_exits_list summary m,
      get_interactive_map_and_mrt_geojson haversine
        [(1.0, 103.0); (1.2, 103.2)] mrt_exits_list = (summary, Some m) ->
      map_location m = (1.1, 103.1)) /\
  center_of [(1.0, 103.0); (1.2, 103.2)] = (1.1, 103.1) /\
  (arithmetic_mean [1.0; 1.2], arithmetic_mean [103.0; 103.2]) = (1.1, 103.1) /\
  (py_sum_compensated [1.0; 1.2] / py_len [1.0; 1.2],
   py_sum_compensated [103.0; 103.2] / py_len [103.0; 103.2]) = (1.1, 103.1) /\
  center_of [(1.3, 103.8)] = (1.3, 103.8) /\
  center_of [(1, 103); (2, 104); (6, 105)] = (3, 104) /\
  (arithmetic_mean [1; 2; 6], arithmetic_mean [103; 104; 105]) = (3, 104).
Proof.
  split; [exact center_of_means |].
  split; [| split; [| repeat split; vm_compute; reflexivity]].
  - intros locations mrt_exits_list summary m Hlen Hcall centroid.
    assert (Hcentroid : centroid = center_of locations)
      by (symmetry; now apply center_of_means).
    rewrite Hcentroid. clear Hcentroid centroid.
    apply locator_success in Hcall.
    destruct Hcall as (_ & _ & name & d & found & Hscan & -> & ->).
    split; [apply build_map_location |]. split.
    + rewrite build_map_children.
      apply in_or_app. right. apply in_or_app. right. now left.
    + now exists name, d, found.
  - intros mrt_exits_list summary m Hcall. apply locator_success in Hcall.
    destruct Hcall as (_ & _ & name & d & found & _ & _ & ->).
    rewrite build_map_location. vm_compute. reflexivity.
Qed.

(** C8: on a successful call a polygon is on the map exactly when there are
    three or more input locations; it is then the only one and goes through
    the input locations in the order given; two locations give no polygon,
    three give one. *)
Theorem polygon_gating (locations : list coord)
    (mrt_exits_list : list exit_record) (summary : string) (m : Map) :
  get_interactive_map_and_mrt_geojson haversine locations mrt_exits_list
    = (summary, Some m) ->
  ((exists l, In l (children m) /\ is_polygon l = true)
   <-> (3 <= List.length locations)%nat) /\
  (forall pts popup color fill fill_color fill_opacity,
      In (Polygon pts popup color fill fill_color fill_opacity) (children m) ->
      pts = locations) /\
  ((3 <= List.length locations)%nat ->
   polygons m = [input_polygon locations]) /\
  (List.length locations = 2%nat -> polygons m = []) /\
  (List.length locations = 3%nat -> polygons m = [input_polygon locations]).
Proof.
  intros Hcall. apply locator_success in Hcall.
  destruct Hcall as (_ & _ & name & d & found & _ & _ & ->).
  pose proof (build_map_polygons locations (center_of locations) name found)
    as Hpoly.
  assert (Hin : forall l,
             In l (children (build_map locations (center_of locations)
                               name found)) /\ is_polygon l = true
             <-> In l (if (3 <=? List.length locations)%nat
                       then [input_polygon locations] else [])).
  { intros l. rewrite <- Hpoly. unfold polygons. now rewrite filter_In. }
  split; [| split; [| split; [| split]]].
  - split.
    + intros [l Hl]. apply Hin in Hl.
      destruct (3 <=? List.length locations)%nat eqn:Hlen;
        [now apply Nat.leb_le | contradiction].
    + intros Hlen. exists (input_polygon locations). apply Hin.
      apply Nat.leb_le in Hlen. rewrite Hlen. now left.
  - intros pts popup color fill fill_color fill_opacity Hl.
    assert (Hl' := proj1 (Hin _) (conj Hl eq_refl)).
    destruct (3 <=? List.length locations)%nat; [| contradiction].
    destruct Hl' as [Heq | []]. now injection Heq.
  - intros Hlen. rewrite Hpoly. apply Nat.leb_le in Hlen. now rewrite Hlen.
  - intros Hlen. rewrite Hpoly, Hlen. reflexivity.
  - intros Hlen. rewrite Hpoly, Hlen. reflexivity.
Qed.

End LocatorClaims.

Lemma centroid_is_mean_witness :
  Z.lt (Z.of_nat (List.length [(1.0, 103.0); (1.2, 103.2)])) (2 ^ 63)%Z /\
  get_interactive_map_and_mrt_geojson chart_km
    [(1.0, 103.0); (1.2, 103.2)] alpha_beta
  = ("The nearest MRT station is: ALPHA MRT STATION (distance: 80.95 km)"%string,
     Some (build_map [(1.0, 103.0); (1.2, 103.2)] (1.1, 103.1)
             "ALPHA MRT STATION" (Some (1.30, 103.80)))) /\
  map_location (build_map [(1.0, 103.0); (1.2, 103.2)] (1.1, 103.1)
                  "ALPHA MRT STATION" (Some (1.30, 103.80)))
  = (arithmetic_mean (map fst [(1.0, 103.0); (1.2, 103.2)]),
     arithmetic_mean (map snd [(1.0, 103.0); (1.2, 103.2)])).
Proof.
  assert (Hlen : Z.lt (Z.of_nat (List.length [(1.0, 103.0); (1.2, 103.2)]))
                      (2 ^ 63)%Z) by (vm_compute; reflexivity).
  assert (Hcall :
    get_interactive_map_and_mrt_geojson chart_km
      [(1.0, 103.0); (1.2, 103.2)] alpha_beta
    = ("The nearest MRT station is: ALPHA MRT STATION (distance: 80.95 km)"%string,
       Some (build_map [(1.0, 103.0); (1.2, 103.2)] (1.1, 103.1)
               "ALPHA MRT STATION" (Some (1.30, 103.80)))))
    by (vm_compute; reflexivity).
  split; [exact Hlen |]. split; [exact Hcall |].
  exact (proj1 (proj1 (proj2 (centroid_is_mean chart_km)) _ _ _ _ Hlen Hcall)).
Defined.

Lemma polygon_gating_witness :
  get_interactive_map_and_mrt_geojson chart_km
    [(1.3, 103.8); (1.4, 103.8); (1.3, 103.9)] alpha_beta
  = ("The nearest MRT station is: BETA MRT STATION (distance: 3.67 km)"%string,
     Some (build_map [(1.3, 103.8); (1.4, 103.8); (1.3, 103.9)]
             (center_of [(1.3, 103.8); (1.4, 103.8); (1.3, 103.9)])
             "BETA MRT STATION" (Some (1.31, 103.81)))) /\
  polygons (build_map [(1.3, 103.8); (1.4, 103.8); (1.3, 103.9)]
              (center_of [(1.3, 103.8); (1.4, 103.8); (1.3, 103.9)])
              "BETA MRT STATION" (Some (1.31, 103.81)))
  = [input_polygon [(1.3, 103.8); (1.4, 103.8); (1.3, 103.9)]].
Proof.
  assert (Hcall :
    get_interactive_map_and_mrt_geojson chart_km
      [(1.3, 103.8); (1.4, 103.8); (1.3, 103.9)] alpha_beta
    = ("The nearest MRT station is: BETA MRT STATION (distance: 3.67 km)"%string,
       Some (build_map [(1.3, 103.8); (1.4, 103.8); (1.3, 103.9)]
               (center_of [(1.3, 103.8); (1.4, 103.8); (1.3, 103.9)])
               "BETA MRT STATION" (Some (1.31, 103.81)))))
    by (vm_compute; reflexivity).
  split; [exact Hcall |].
  apply (proj1 (proj2 (proj2 (polygon_gating chart_km _ _ _ _ Hcall)))).
  simpl. lia.
Defined.

(** ** The angle converter *)

Lemma direction_test (direction : string) :
  existsb (String.eqb direction) ["S"; "W"; "s"; "w"]%string
  = south_or_west direction.
Proof.
  destruct direction as [| a [| b rest]].
  - reflexivity.
  - destruct a as [[] [] [] [] [] [] [] []]; reflexivity.
  - simpl. now destruct (a =? "S")%char, (a =? "W")%char,
                      (a =? "s")%char, (a =? "w")%char.
Qed.

Lemma south_or_west_iff (direction : string) :
  south_or_west direction = true <->
  (direction = "S" \/ direction = "W" \/ direction = "s" \/ direction = "w")%string.
Proof.
  rewrite <- direction_test. simpl.
  rewrite !orb_true_iff, !String.eqb_eq. intuition discriminate.
Qed.

(** C7: for all degrees, minutes, seconds and direction code the converter
    returns [degrees + minutes/60 + seconds/3600], negated when the code is
    a single character that is S or W in either case, that is one of
    ['S'], ['W'], ['s'], ['w'], and as it is for every other code; no value
    of the three numbers is refused. [dms_to_dd(1, 30, 0, 'N')] is 1.5, with
    ['S'] it is -1.5, with ['x'] it is 1.5. *)
Theorem dms_to_dd_formula :
  (forall degrees minutes seconds direction,
      dms_to_dd degrees minutes seconds direction
      = if south_or_west direction
        then - (degrees + minutes / 60 + seconds / 3600)
        else degrees + minutes / 60 + seconds / 3600) /\
  (forall direction,
      south_or_west direction = true <->
      (direction = "S" \/ direction = "W" \/
       direction = "s" \/ direction = "w")%string) /\
  dms_to_dd 1 30 0 "N" = 1.5 /\
  dms_to_dd 1 30 0 "S" = -1.5 /\
  dms_to_dd 1 30 0 "x" = 1.5 /\
  dms_to_dd 1 90 (-1800) "north" = 2.
Proof.
  split; [| split; [exact south_or_west_iff |]].
  - intros degrees minutes seconds direction. unfold dms_to_dd.
    now rewrite direction_test.
  - repeat split; vm_compute; reflexivity.
Qed.

(** ** The two-decimal format *)

Module FmtFacts.

Import Fmt.

Lemma string_of_uint_digits (u : Decimal.uint) :
  all_digits (NilEmpty.string_of_uint u) = true.
Proof. induction u; simpl; [reflexivity | assumption ..]. Qed.

Lemma digits_all_digits (n : Z) : all_digits (digits n) = true.
Proof.
  unfold digits, NilZero.string_of_uint.
  destruct (N.to_uint (Z.to_N n)) eqn:Hu; try reflexivity;
    rewrite <- Hu; apply string_of_uint_digits.
Qed.

Lemma digits_not_empty (n : Z) : digits n <> EmptyString.
Proof.
  unfold digits, NilZero.string_of_uint.
  destruct (N.to_uint (Z.to_N n)); simpl; discriminate.
Qed.

Lemma two_digits_ok_below_100 :
  forallb two_digits_ok (seq 0 100) = true.
Proof. vm_compute. reflexivity. Qed.

Lemma two_digits_shape (r : Z) :
  (0 <= r < 100)%Z ->
  exists a b, two_digits r = String a (String b EmptyString) /\
              is_digit a = true /\ is_digit b = true.
Proof.
  intros Hr.
  pose proof two_digits_ok_below_100 as Hall.
  rewrite forallb_forall in Hall.
  specialize (Hall (Z.to_nat r)).
  assert (Hin : In (Z.to_nat r) (seq 0 100)) by (apply in_seq; lia).
  apply Hall in Hin. unfold two_digits_ok in Hin.
  rewrite Z2Nat.id in Hin by lia.
  destruct (two_digits r) as [| a [| b [| c rest]]]; try discriminate.
  apply andb_true_iff in Hin. now exists a, b.
Qed.

Lemma fixed2_two_decimals (s : bool) (h : Z) :
  two_decimals (sign s ++ fixed2 h)%string.
Proof.
  destruct (two_digits_shape (h mod 100)) as (a & b & Hab & Ha & Hb).
  { apply Z.mod_pos_bound. lia. }
  exists (sign s), (digits (h / 100)), a, b.
  unfold fixed2. rewrite Hab.
  split; [reflexivity |].
  split; [destruct s; [now right | now left] |].
  split; [apply digits_not_empty |].
  split; [apply digits_all_digits |]. now split.
Qed.

(** A number that is below infinity and not below zero is printed with two
    decimals. *)
Lemma format_2f_two_decimals (x : float) :
  (x <? infinity) = true -> (x <? 0) = false ->
  two_decimals (format_2f x).
Proof.
  rewrite !ltb_spec. unfold format_2f.
  change (Prim2SF infinity) with (S754_infinity false).
  change (Prim2SF 0) with (S754_zero false).
  destruct (Prim2SF x) as [s | [] | | s m e]; try discriminate.
  - intros _ _. exists (sign s), "0"%string, "0"%char, "0"%char.
    split; [reflexivity |].
    split; [destruct s; [now right | now left] |].
    repeat split; discriminate.
  - intros _ _. apply fixed2_two_decimals.
Qed.

End FmtFacts.

(** ** The nearest station *)

Section NearestClaims.

Variable haversine : coord -> coord -> float.

(** The search finds a station as soon as one is at a distance below
    infinity, and then holds the first of those that none beats. *)
Lemma locator_finds (loc : coord) (locs : list coord)
    (s : exit_record) (cat : list exit_record) :
  let locations := loc :: locs in
  let catalog := s :: cat in
  let c := center_of locations in
  (exists s', In s' catalog /\ (haversine c (snd s') <? infinity) = true) ->
  exists i name coords,
    nth_error catalog i = Some (name, coords) /\
    get_interactive_map_and_mrt_geojson haversine locations catalog
      = (result_string_of name (haversine c coords),
         Some (build_map locations c name (Some coords))) /\
    (haversine c coords <? infinity) = true /\
    (forall j s', nth_error catalog j = Some s' ->
                  (haversine c (snd s') <? haversine c coords) = false) /\
    (forall j s', nth_error catalog j = Some s' ->
                  (haversine c (snd s') =? haversine c coords) = true ->
                  (i <= j)%nat).
Proof.
  intros locations catalog c [s' [Hin Hfin]].
  pose proof (scan_invariant haversine c catalog) as Hinv.
  destruct (scan haversine c catalog) as [[name d] found] eqn:Hscan.
  unfold scan_inv in Hinv. destruct found as [coords |].
  - destruct Hinv as (i & Hi & -> & Hd & Hmin & Hfirst).
    exists i, name, coords. repeat split; try assumption.
    now apply locator_runs.
  - destruct Hinv as (_ & _ & Hnone).
    rewrite (Hnone s' Hin) in Hfin. discriminate.
Qed.

Lemma locator_finds_none (loc : coord) (locs : list coord)
    (s : exit_record) (cat : list exit_record) :
  let locations := loc :: locs in
  let catalog := s :: cat in
  let c := center_of locations in
  (forall s', In s' catalog -> (haversine c (snd s') <? infinity) = false) ->
  get_interactive_map_and_mrt_geojson haversine locations catalog
    = (result_string_of "Unknown" infinity,
       Some (build_map locations c "Unknown" None)).
Proof.
  intros locations catalog c Hnone.
  pose proof (scan_invariant haversine c catalog) as Hinv.
  destruct (scan haversine c catalog) as [[name d] found] eqn:Hscan.
  unfold scan_inv in Hinv. destruct found as [coords |].
  - destruct Hinv as (i & Hi & -> & Hd & _).
    apply nth_error_In in Hi. apply Hnone in Hi. simpl in Hi.
    rewrite Hi in Hd. discriminate.
  - destruct Hinv as (-> & -> & _). now apply locator_runs.
Qed.

(** C1, amended: on a successful call in which some station is at a distance
    from the centroid that compares below infinity (a distance that is not
    NaN), the locator returns a station of the catalog whose distance is
    such a number, at most the distance of every other such station, with no
    station strictly closer, and coming before every other station at an
    equal distance: it is named in the summary with its distance and carries
    the station marker. When no station is at such a distance, a successful
    call gives the name "Unknown", the distance infinity and a map without
    station marker. *)
Theorem nearest_is_first_minimum (locations : list coord)
    (mrt_exits_list : list exit_record) (summary : string) (m : Map) :
  get_interactive_map_and_mrt_geojson haversine locations mrt_exits_list
    = (summary, Some m) ->
  let c := center_of locations in
  ((exists s', In s' mrt_exits_list /\
               (haversine c (snd s') <? infinity) = true) ->
   exists i name coords,
     nth_error mrt_exits_list i = Some (name, coords) /\
     summary = result_string_of name (haversine c coords) /\
     m = build_map locations c name (Some coords) /\
     (haversine c coords <? infinity) = true /\
     (forall s', In s' mrt_exits_list ->
                 (haversine c (snd s') <? infinity) = true ->
                 (haversine c coords <=? haversine c (snd s')) = true) /\
     (forall j s', nth_error mrt_exits_list j = Some s' ->
                   (haversine c (snd s') <? haversine c coords) = false) /\
     (forall j s', nth_error mrt_exits_list j = Some s' ->
                   (haversine c (snd s') =? haversine c coords) = true ->
                   (i <= j)%nat)) /\
  ((forall s', In s' mrt_exits_list ->
               (haversine c (snd s') <? infinity) = false) ->
   summary = result_string_of "Unknown" infinity /\
   m = build_map locations c "Unknown" None).
Proof.
  intros Hcall c.
  destruct locations as [| loc locs]; [discriminate Hcall |].
  destruct mrt_exits_list as [| s cat]; [discriminate Hcall |].
  split.
  - intros Hsome.
    destruct (locator_finds loc locs s cat Hsome)
      as (i & name & coords & Hi & Hcall' & Hfin & Hmin & Hfirst).
    rewrite Hcall' in Hcall. injection Hcall as <- <-.
    exists i, name, coords.
    split; [exact Hi |]. split; [reflexivity |]. split; [reflexivity |].
    split; [exact Hfin |]. split; [| split; [exact Hmin | exact Hfirst]].
    intros s' Hin Hfin'. apply FloatOrder.leb_of_not_ltb; try assumption.
    apply In_nth_error in Hin. destruct Hin as [j Hj]. now apply Hmin with j.
  - intros Hnone.
    rewrite (locator_finds_none loc locs s cat Hnone) in Hcall.
    injection Hcall as <- <-. now split.
Qed.

(** C9, amended: on a successful call in which some station is at a distance
    below infinity and none at a negative one, the summary is the line
    "The nearest MRT station is: NAME (distance: D km)" where NAME is the
    name of a station that none is strictly closer than, the one that
    carries the station marker, and D its distance with exactly two decimals. When the distance to ALPHA is 0 and the one
    to BETA not negative, the scenario's summary reads
    "ALPHA MRT STATION (distance: 0.00 km)". *)
Theorem summary_line :
  (forall loc locs s cat,
      let locations := loc :: locs in
      let catalog := s :: cat in
      let c := center_of locations in
      (exists s', In s' catalog /\ (haversine c (snd s') <? infinity) = true) ->
      (forall s', In s' catalog -> (haversine c (snd s') <? 0) = false) ->
      exists name coords distance,
        In (name, coords) catalog /\
        (forall s', In s' catalog ->
                    (haversine c (snd s') <? haversine c coords) = false) /\
        get_interactive_map_and_mrt_geojson haversine locations catalog
          = (("The nearest MRT station is: " ++ name
              ++ " (distance: " ++ distance ++ " km)")%string,
             Some (build_map locations c name (Some coords))) /\
        distance = Fmt.format_2f (haversine c coords) /\
        two_decimals distance) /\
  (haversine (1.3, 103.8) (1.3, 103.8) = 0 ->
   (haversine (1.3, 103.8) (1.31, 103.81) <? 0) = false ->
   fst (get_interactive_map_and_mrt_geojson haversine [(1.3, 103.8)] alpha_beta)
   = "The nearest MRT station is: ALPHA MRT STATION (distance: 0.00 km)"%string).
Proof.
  split.
  - intros loc locs s cat locations catalog c Hsome Hnonneg.
    destruct (locator_finds loc locs s cat Hsome)
      as (i & name & coords & Hi & Hcall & Hfin & Hmin & _).
    exists name, coords, (Fmt.format_2f (haversine c coords)).
    apply nth_error_In in Hi.
    split; [exact Hi |].
    split.
    { intros s' Hin. apply In_nth_error in Hin. destruct Hin as [j Hj].
      now apply Hmin with j. }
    split; [exact Hcall |]. split; [reflexivity |].
    apply FmtFacts.format_2f_two_decimals; [exact Hfin |].
    now apply (Hnonneg (name, coords)).
  - intros Halpha Hbeta.
    unfold get_interactive_map_and_mrt_geojson, alpha_beta, scan.
    change (center_of [(1.3, 103.8)]) with (1.3, 103.8).
    cbn [fold_left scan_step nearest_init].
    rewrite Halpha. change (0 <? infinity) with true. cbn iota.
    unfold scan_step. rewrite Hbeta. reflexivity.
Qed.

End NearestClaims.

Example tie_goes_to_the_earlier :
  get_interactive_map_and_mrt_geojson chart_km [(1, 103)] tie_catalog
  = ("The nearest MRT station is: NORTH MRT STATION (distance: 55.60 km)"%string,
     Some (mkMap (1, 103) 14
             [input_marker (1, 103); center_marker (1, 103);
              station_marker (1.5, 103) "NORTH MRT STATION"])).
Proof. vm_compute. reflexivity. Qed.

Lemma nearest_is_first_minimum_witness :
  get_interactive_map_and_mrt_geojson chart_km [(1, 103)] twin_catalog
  = ("The nearest MRT station is: NORTH MRT STATION EXIT A (distance: 55.60 km)"%string,
     Some (build_map [(1, 103)] (1, 103)
             "NORTH MRT STATION EXIT A" (Some (1.5, 103)))) /\
  (exists s', In s' twin_catalog /\
              (chart_km (center_of [(1, 103)]) (snd s') <? infinity) = true) /\
  exists i name coords,
    nth_error twin_catalog i = Some (name, coords) /\
    "The nearest MRT station is: NORTH MRT STATION EXIT A (distance: 55.60 km)"%string
    = result_string_of name (chart_km (center_of [(1, 103)]) coords) /\
    build_map [(1, 103)] (1, 103) "NORTH MRT STATION EXIT A" (Some (1.5, 103))
    = build_map [(1, 103)] (center_of [(1, 103)]) name (Some coords) /\
    (chart_km (center_of [(1, 103)]) coords <? infinity) = true /\
    (forall s', In s' twin_catalog ->
       (chart_km (center_of [(1, 103)]) (snd s') <? infinity) = true ->
       (chart_km (center_of [(1, 103)]) coords
          <=? chart_km (center_of [(1, 103)]) (snd s')) = true) /\
    (forall j s', nth_error twin_catalog j = Some s' ->
       (chart_km (center_of [(1, 103)]) (snd s')
          <? chart_km (center_of [(1, 103)]) coords) = false) /\
    (forall j s', nth_error twin_catalog j = Some s' ->
       (chart_km (center_of [(1, 103)]) (snd s')
          =? chart_km (center_of [(1, 103)]) coords) = true ->
       (i <= j)%nat).
Proof.
  assert (Hcall :
    get_interactive_map_and_mrt_geojson chart_km [(1, 103)] twin_catalog
    = ("The nearest MRT station is: NORTH MRT STATION EXIT A (distance: 55.60 km)"%string,
       Some (build_map [(1, 103)] (1, 103)
               "NORTH MRT STATION EXIT A" (Some (1.5, 103)))))
    by (vm_compute; reflexivity).
  assert (Hsome : exists s', In s' twin_catalog /\
            (chart_km (center_of [(1, 103)]) (snd s') <? infinity) = true).
  { exists ("FAR MRT STATION"%string, (3, 103)).
    split; [left; reflexivity | vm_compute; reflexivity]. }
  split; [exact Hcall |]. split; [exact Hsome |].
  exact (proj1 (nearest_is_first_minimum chart_km [(1, 103)] twin_catalog
                  _ _ Hcall) Hsome).
Defined.

(** With a station at a NaN distance between two others, the station
    returned is the one at distance 0, not the one whose distance compares
    with nothing. *)
Example nan_station_does_not_win :
  get_interactive_map_and_mrt_geojson chart_km [(1, 103)]
    [("ALPHA MRT STATION"%string, (1, 103)); ghost_station;
     ("BETA MRT STATION"%string, (2, 103))]
  = ("The nearest MRT station is: ALPHA MRT STATION (distance: 0.00 km)"%string,
     Some (build_map [(1, 103)] (1, 103)
             "ALPHA MRT STATION" (Some (1, 103)))).
Proof. vm_compute. reflexivity. Qed.

(** C1 as stated fails: a catalog whose only station has NaN coordinates (a
    document with ["coordinates": [NaN, NaN]] decodes to it) is not empty,
    its distance from any centroid is NaN, and the locator returns no station
    of the catalog. *)
Lemma nearest_station_missing :
  get_interactive_map_and_mrt_geojson chart_km [(1.3, 103.8)] nan_catalog
  = ("The nearest MRT station is: Unknown (distance: inf km)"%string,
     Some (mkMap (1.3, 103.8) 14
             [input_marker (1.3, 103.8); center_marker (1.3, 103.8)])) /\
  ~ (exists name coords,
        In (name, coords) nan_catalog /\
        snd (get_interactive_map_and_mrt_geojson chart_km
               [(1.3, 103.8)] nan_catalog)
        = Some (build_map [(1.3, 103.8)] (center_of [(1.3, 103.8)])
                  name (Some coords))).
Proof.
  split; [vm_compute; reflexivity |].
  intros (name & coords & Hin & Hmap).
  destruct Hin as [Heq | []]. injection Heq as <- <-.
  vm_compute in Hmap. discriminate.
Qed.

Lemma summary_line_witness :
  (exists s', In s' alpha_beta /\
              (chart_km (center_of [(1.3, 103.8)]) (snd s') <? infinity) = true) /\
  (forall s', In s' alpha_beta ->
              (chart_km (center_of [(1.3, 103.8)]) (snd s') <? 0) = false) /\
  exists name coords distance,
    In (name, coords) alpha_beta /\
    (forall s', In s' alpha_beta ->
       (chart_km (center_of [(1.3, 103.8)]) (snd s')
          <? chart_km (center_of [(1.3, 103.8)]) coords) = false) /\
    get_interactive_map_and_mrt_geojson chart_km [(1.3, 103.8)] alpha_beta
      = (("The nearest MRT station is: " ++ name
          ++ " (distance: " ++ distance ++ " km)")%string,
         Some (build_map [(1.3, 103.8)] (center_of [(1.3, 103.8)])
                 name (Some coords))) /\
    distance = Fmt.format_2f (chart_km (center_of [(1.3, 103.8)]) coords) /\
    two_decimals distance.
Proof.
  assert (Hsome : exists s', In s' alpha_beta /\
            (chart_km (center_of [(1.3, 103.8)]) (snd s') <? infinity) = true).
  { exists ("ALPHA MRT STATION"%string, (1.30, 103.80)).
    split; [left; reflexivity | vm_compute; reflexivity]. }
  assert (Hnonneg : forall s', In s' alpha_beta ->
            (chart_km (center_of [(1.3, 103.8)]) (snd s') <? 0) = false).
  { intros s' [<- | [<- | []]]; vm_compute; reflexivity. }
  split; [exact Hsome |]. split; [exact Hnonneg |].
  exact (proj1 (summary_line chart_km) (1.3, 103.8) []
           ("ALPHA MRT STATION"%string, (1.30, 103.80))
           [("BETA MRT STATION"%string, (1.31, 103.81))] Hsome Hnonneg).
Defined.

(** C9 as stated fails: the call below is successful, and its summary names
    no station of the catalog and gives a distance without decimals. *)
Lemma summary_without_station :
  get_interactive_map_and_mrt_geojson chart_km [(1.3, 103.8)]
    [("ALPHA MRT STATION"%string, (nan, 103.8));
     ("BETA MRT STATION"%string, (1.31, nan))]
  = ("The nearest MRT station is: Unknown (distance: inf km)"%string,
     Some (mkMap (1.3, 103.8) 14
             [input_marker (1.3, 103.8); center_marker (1.3, 103.8)])) /\
  ~ (exists name coords distance,
        In (name, coords)
           [("ALPHA MRT STATION"%string, (nan, 103.8));
            ("BETA MRT STATION"%string, (1.31, nan))] /\
        fst (get_interactive_map_and_mrt_geojson chart_km [(1.3, 103.8)]
               [("ALPHA MRT STATION"%string, (nan, 103.8));
                ("BETA MRT STATION"%string, (1.31, nan))])
        = ("The nearest MRT station is: " ++ name
           ++ " (distance: " ++ distance ++ " km)")%string).
Proof.
  split; [vm_compute; reflexivity |].
  intros (name & coords & distance & Hin & Hsummary).
  change (fst _) with
    "The nearest MRT station is: Unknown (distance: inf km)"%string
    in Hsummary.
  destruct Hin as [Heq | [Heq | []]]; injection Heq as <- <-;
    simpl in Hsummary; discriminate.
Qed.

(** * Further properties *)

(** ** The station-name pattern *)

Module PatternFacts.

Import Str.

Lemma drop_app (p rest : string) :
  drop (String.length p) (p ++ rest)%string = rest.
Proof. induction p as [| a p IH]; simpl; [reflexivity | exact IH]. Qed.

Lemma newline_free_app (a b : string) :
  newline_free (a ++ b)%string = newline_free a && newline_free b.
Proof.
  induction a as [| c a IH]; simpl; [reflexivity |].
  now rewrite IH, andb_assoc.
Qed.

(** The lazy group stops at the first place where [close] stands. *)
Lemma lazy_until_sound (close s g : string) :
  lazy_until close s = Some g ->
  exists post,
    s = (g ++ close ++ post)%string /\
    newline_free g = true /\
    (forall g1 g2, g = (g1 ++ g2)%string -> g2 <> EmptyString ->
                   starts_with close (g2 ++ close ++ post)%string = false).
Proof.
  revert g. induction s as [| c s IH]; intros g; simpl.
  - destruct (starts_with close EmptyString) eqn:Hst; [| discriminate].
    intros [= <-]. apply StrFacts.starts_with_iff in Hst.
    destruct Hst as [post Hpost]. exists post.
    split; [exact Hpost |]. split; [reflexivity |].
    intros [| a g1] g2 Hg Hne; [simpl in Hg; now subst g2 | discriminate].
  - destruct (starts_with close (String c s)) eqn:Hst.
    + intros [= <-]. apply StrFacts.starts_with_iff in Hst.
      destruct Hst as [post Hpost]. exists post.
      split; [exact Hpost |]. split; [reflexivity |].
      intros [| a g1] g2 Hg Hne; [simpl in Hg; now subst g2 | discriminate].
    + destruct (Ascii.eqb c newline) eqn:Hnl; [discriminate |].
      destruct (lazy_until close s) as [g' |] eqn:Hrec; [| discriminate].
      intros [= <-]. destruct (IH g' eq_refl) as (post & Hs & Hfree & Hmin).
      exists post. split; [simpl; now rewrite <- Hs |].
      split; [simpl; now rewrite Hnl |].
      intros [| a g1] g2 Hg Hne.
      * simpl in Hg. subst g2. simpl. rewrite <- Hs. exact Hst.
      * injection Hg as _ Hg. now apply Hmin with g1.
Qed.

(** Where [close] stands after a run without line break, the lazy group
    finds an end. *)
Lemma lazy_until_complete (close g post : string) :
  newline_free g = true ->
  exists g', lazy_until close (g ++ close ++ post)%string = Some g'.
Proof.
  induction g as [| c g IH]; intros Hfree.
  - assert (Hst : starts_with close (close ++ post)%string = true)
      by (apply StrFacts.starts_with_iff; now exists post).
    exists EmptyString. simpl.
    destruct (close ++ post)%string; simpl in *; now rewrite Hst.
  - simpl in Hfree. apply andb_true_iff in Hfree. destruct Hfree as [Hc Hfree].
    destruct (IH Hfree) as [g' Hg']. simpl.
    destruct (starts_with close (String c (g ++ close ++ post))).
    + now exists EmptyString.
    + apply negb_true_iff in Hc. rewrite Hc, Hg'. now exists (String c g').
Qed.

Lemma search_here (open close rest : string) :
  (if starts_with open (open ++ rest)%string
   then lazy_until close (drop (String.length open) (open ++ rest)%string)
   else None)
  = lazy_until close rest.
Proof.
  assert (Hst : starts_with open (open ++ rest)%string = true)
    by (apply StrFacts.starts_with_iff; now exists rest).
  now rewrite Hst, drop_app.
Qed.

Lemma search_group_unfold (open close s : string) :
  search_group open close s =
  match (if starts_with open s
         then lazy_until close (drop (String.length open) s)
         else None) with
  | Some g => Some g
  | None =>
      match s with
      | EmptyString => None
      | String _ s' => search_group open close s'
      end
  end.
Proof. destruct s; reflexivity. Qed.

(** A match of [open(.*?)close]: where it is, what the group holds, and that
    no match begins further left. *)
Lemma search_group_sound (open close s g : string) :
  search_group open close s = Some g ->
  exists pre post,
    s = (pre ++ open ++ g ++ close ++ post)%string /\
    newline_free g = true /\
    (forall g1 g2, g = (g1 ++ g2)%string -> g2 <> EmptyString ->
                   starts_with close (g2 ++ close ++ post)%string = false) /\
    (forall pre' g' post',
        s = (pre' ++ open ++ g' ++ close ++ post')%string ->
        newline_free g' = true ->
        (String.length pre <= String.length pre')%nat).
Proof.
  induction s as [| ch s IH]; rewrite search_group_unfold.
  - destruct (starts_with open EmptyString) eqn:Hst; [| discriminate].
    destruct (lazy_until close (drop (String.length open) EmptyString))
      as [g0 |] eqn:Hlazy; [| discriminate].
    intros [= <-]. apply StrFacts.starts_with_iff in Hst.
    destruct Hst as [rest Hrest]. rewrite Hrest, drop_app in Hlazy.
    destruct (lazy_until_sound _ _ _ Hlazy) as (post & Hs & Hfree & Hmin).
    exists EmptyString, post. simpl. rewrite <- Hs.
    split; [exact Hrest |]. split; [exact Hfree |]. split; [exact Hmin |].
    intros; simpl; lia.
  - destruct (if starts_with open (String ch s)
              then lazy_until close (drop (String.length open) (String ch s))
              else None) as [g0 |] eqn:Hhere.
    + intros [= <-].
      destruct (starts_with open (String ch s)) eqn:Hst; [| discriminate].
      apply StrFacts.starts_with_iff in Hst. destruct Hst as [rest Hrest].
      rewrite Hrest, drop_app in Hhere.
      destruct (lazy_until_sound _ _ _ Hhere) as (post & Hs & Hfree & Hmin).
      exists EmptyString, post. simpl. rewrite <- Hs.
      split; [exact Hrest |]. split; [exact Hfree |]. split; [exact Hmin |].
      intros; simpl; lia.
    + intros Hrec. destruct (IH Hrec) as (pre & post & Hs & Hfree & Hmin & Hleft).
      exists (String ch pre), post. split; [simpl; now rewrite <- Hs |].
      split; [exact Hfree |]. split; [exact Hmin |].
      intros [| ch' pre'] g' post' Hs' Hfree'.
      * exfalso. simpl in Hs'. rewrite Hs', search_here in Hhere.
        destruct (lazy_until_complete close g' post' Hfree') as [g'' Hg''].
        rewrite Hg'' in Hhere. discriminate.
      * simpl in Hs'. injection Hs' as _ Hs'. simpl.
        apply le_n_S. now apply Hleft with g' post'.
Qed.

(** No match: no [open ... close] has a line-break-free text in between. *)
Lemma search_group_none (open close s : string) :
  search_group open close s = None ->
  forall pre g post,
    s = (pre ++ open ++ g ++ close ++ post)%string -> newline_free g = false.
Proof.
  induction s as [| ch s IH]; rewrite search_group_unfold;
    intros Hnone pre g post Hs;
    destruct (newline_free g) eqn:Hfree; try reflexivity; exfalso.
  - destruct pre; [| discriminate]. simpl in Hs.
    rewrite Hs, search_here in Hnone.
    destruct (lazy_until_complete close g post Hfree) as [g' Hg'].
    rewrite Hg' in Hnone. destruct (open ++ g ++ close ++ post)%string;
      discriminate.
  - destruct pre as [| ch' pre].
    + simpl in Hs. rewrite Hs, search_here in Hnone.
      destruct (lazy_until_complete close g post Hfree) as [g' Hg'].
      rewrite Hg' in Hnone. discriminate.
    + simpl in Hs. injection Hs as _ Hs.
      destruct (if starts_with open (String ch s)
                then lazy_until close (drop (String.length open) (String ch s))
                else None); [discriminate |].
      rewrite (IH Hnone pre g post Hs) in Hfree. discriminate.
Qed.

End PatternFacts.

(** ** What [str.strip()] leaves *)

Module StripFacts.

Import Str.

Lemma lstrip_split (s : string) :
  exists pre, s = (pre ++ lstrip s)%string /\ all_space pre = true.
Proof.
  induction s as [| c s [pre [Hs Hpre]]]; simpl.
  - now exists EmptyString.
  - destruct (is_space c) eqn:Hc.
    + exists (String c pre). simpl. now rewrite <- Hs, Hc.
    + now exists EmptyString.
Qed.

Lemma rstrip_split (s : string) :
  exists post, s = (rstrip s ++ post)%string /\ all_space post = true.
Proof.
  induction s as [| c s [post [Hs Hpost]]]; simpl.
  - now exists EmptyString.
  - destruct (rstrip s) as [| a r] eqn:Hr.
    + simpl in Hs. subst post. destruct (is_space c) eqn:Hc.
      * exists (String c s). simpl. now rewrite Hc.
      * now exists s.
    + exists post. simpl in *. now rewrite <- Hs.
Qed.

Lemma lstrip_no_leading (s : string) : leading_space (lstrip s) = false.
Proof.
  induction s as [| c s IH]; simpl; [reflexivity |].
  destruct (is_space c) eqn:Hc; [exact IH | simpl; exact Hc].
Qed.

Lemma rstrip_no_trailing (s : string) : trailing_space (rstrip s) = false.
Proof.
  induction s as [| c s IH]; simpl; [reflexivity |].
  destruct (rstrip s) as [| a r] eqn:Hr.
  - destruct (is_space c) eqn:Hc; simpl; [reflexivity | exact Hc].
  - exact IH.
Qed.

Lemma rstrip_keeps_leading (s : string) :
  leading_space s = false -> leading_space (rstrip s) = false.
Proof.
  destruct s as [| c s]; simpl; [reflexivity |]. intros Hc.
  destruct (rstrip s); [rewrite Hc |]; simpl; exact Hc.
Qed.

(** [strip] takes whitespace off both ends and nothing else. *)
Lemma strip_split (s : string) :
  exists pre post,
    s = (pre ++ strip s ++ post)%string /\
    all_space pre = true /\ all_space post = true.
Proof.
  destruct (lstrip_split s) as (pre & Hs & Hpre).
  destruct (rstrip_split (lstrip s)) as (post & Hl & Hpost).
  exists pre, post. unfold strip. now rewrite <- Hl.
Qed.

Lemma strip_trimmed (s : string) :
  leading_space (strip s) = false /\ trailing_space (strip s) = false.
Proof.
  unfold strip. split.
  - apply rstrip_keeps_leading, lstrip_no_leading.
  - apply rstrip_no_trailing.
Qed.

Lemma strip_newline_free (s : string) :
  newline_free s = true -> newline_free (strip s) = true.
Proof.
  destruct (strip_split s) as (pre & post & Hs & _ & _).
  intros Hfree. rewrite Hs, !PatternFacts.newline_free_app in Hfree.
  apply andb_true_iff in Hfree. destruct Hfree as [_ Hfree].
  apply andb_true_iff in Hfree. tauto.
Qed.

End StripFacts.

(** ** The feature extractor, further *)

Lemma string_app_assoc (a b c : string) :
  ((a ++ b) ++ c)%string = (a ++ (b ++ c))%string.
Proof. induction a as [| x a IH]; simpl; [reflexivity | now rewrite IH]. Qed.

(** Every record of a returned list was appended by the loop body on some
    feature. *)
Lemma returned_station_accepted (geojson_path : string) (opened : exn + pyval)
    (out : list printed) (stations : list station) (r : station) :
  load_mrt_data_from_geojson geojson_path opened = (out, Returns stations) ->
  In r stations ->
  exists feature, feature_body feature = inr (Some r).
Proof.
  unfold load_mrt_data_from_geojson. intros Hload Hin.
  assert (Hflat : exists features, In r (flat_map feature_records features)).
  { destruct opened as [e | data]; cbn [Py.bind] in Hload.
    - destruct e; inversion Hload; subst; contradiction.
    - destruct (Py.get data "features" (PList [])) as [e | fo];
        cbn [Py.bind] in Hload.
      + destruct e; inversion Hload; subst; contradiction.
      + destruct (Py.iter fo) as [e | features]; cbn [Py.bind Py.ret] in Hload.
        * destruct e; inversion Hload; subst; contradiction.
        * rewrite loop_flat_map in Hload. simpl in Hload.
          inversion Hload; subst. now exists features. }
  destruct Hflat as [features Hflat]. apply in_flat_map in Hflat.
  destruct Hflat as (feature & _ & Hrec). exists feature.
  unfold feature_records in Hrec.
  destruct (feature_body feature) as [e | [r' |]]; simpl in Hrec;
    try contradiction.
  destruct Hrec as [-> | []]. reflexivity.
Qed.

(** X1: A fault leaves the extractor in three situations and no other: [open] or
    [json.load] raised something else than the two caught exceptions; the
    document is no object ([AttributeError]); its [features] member cannot
    be iterated ([TypeError]). Nothing has been printed then. *)
Theorem extractor_propagates_iff (geojson_path : string) (opened : exn + pyval)
    (out : list printed) (e : exn) :
  load_mrt_data_from_geojson geojson_path opened = (out, Propagates e) <->
  out = [] /\
  ((opened = inl e /\ e <> FileNotFoundError /\ e <> JSONDecodeError) \/
   (e = AttributeError /\
    exists data, opened = inr data /\ is_dict data = false) \/
   (e = TypeError /\
    exists d features_obj,
      opened = inr (PDict d) /\
      Py.get (PDict d) "features" (PList []) = inr features_obj /\
      is_iterable features_obj = false)).
Proof.
  unfold load_mrt_data_from_geojson. split.
  - destruct opened as [e0 | data]; cbn [Py.bind].
    + destruct e0; intros H; try discriminate H; inversion H; subst;
        (split; [reflexivity | left; repeat split; discriminate]).
    + destruct (is_dict data) eqn:Hdict.
      * destruct data as [| b | z | f | s | l | d]; try discriminate Hdict.
        destruct (Py.get (PDict d) "features" (PList [])) as [e1 | fo] eqn:Hget.
        { simpl in Hget. destruct (Py.dict_get d "features"); discriminate. }
        cbn [Py.bind]. destruct (is_iterable fo) eqn:Hiter.
        -- destruct fo; try discriminate Hiter;
             cbn [Py.iter Py.bind Py.ret]; discriminate.
        -- destruct fo; try discriminate Hiter;
             cbn [Py.iter Py.bind Py.raise]; intros H; inversion H; subst;
             (split; [reflexivity | right; right; split; [reflexivity |]]);
             eexists d, _; (split; [reflexivity |]);
             (split; [exact Hget | reflexivity]).
      * destruct data; try discriminate Hdict;
          cbn [Py.get Py.bind Py.raise]; intros H; inversion H; subst;
          (split; [reflexivity | right; left; split; [reflexivity |]]);
          eexists; split; reflexivity.
  - intros [-> [(-> & Hfnf & Hjson) | [(-> & data & -> & Hdict)
                                      | (-> & d & fo & -> & Hget & Hiter)]]].
    + destruct e; try reflexivity; contradiction.
    + destruct data; try discriminate; reflexivity.
    + cbn [Py.bind]. rewrite Hget. cbn [Py.bind].
      destruct fo; try discriminate; reflexivity.
Qed.

(** X2: A feature with no geometry, without coordinates (absent, null, empty), or
    whose geometry is not of type "Point", is passed over without a record
    and without a message, whatever its properties are. *)
Theorem non_point_skipped_silently (fd : list (string * pyval))
    (geometry coordinates : pyval) :
  Py.get (PDict fd) "geometry" (PDict []) = inr geometry ->
  Py.get geometry "coordinates" PNone = inr coordinates ->
  (Py.truthy coordinates = false \/
   exists gtype, Py.get geometry "type" PNone = inr gtype /\
                 Py.ne_str gtype "Point" = true) ->
  feature_body (PDict fd) = inr None /\
  feature_records (PDict fd) = [] /\
  feature_printed (PDict fd) = [].
Proof.
  intros Hg Hc Hskip.
  assert (Hbody : feature_body (PDict fd) = inr None).
  { unfold feature_body.
    assert (Hp : exists properties,
               Py.get (PDict fd) "properties" (PDict []) = inr properties).
    { simpl. destruct (Py.dict_get fd "properties"); eexists; reflexivity. }
    destruct Hp as [properties ->]. cbn [Py.bind].
    rewrite Hg. cbn [Py.bind]. rewrite Hc. cbn [Py.bind].
    destruct (Py.truthy coordinates); cbn [negb]; [| reflexivity].
    destruct Hskip as [Hf | (gtype & Hty & Hne)]; [discriminate |].
    rewrite Hty. cbn [Py.bind]. now rewrite Hne. }
  unfold feature_records, feature_printed. now rewrite Hbody.
Qed.

Lemma non_point_skipped_silently_witness :
  Py.get (PDict [("type", PStr "Feature"); ("properties", PNone);
                 ("geometry",
                   PDict [("type", PStr "LineString");
                          ("coordinates",
                            PList [PList [PFloat 103.8; PFloat 1.3];
                                   PList [PFloat 103.9; PFloat 1.4]])])])
         "geometry" (PDict [])
  = inr (PDict [("type", PStr "LineString");
                ("coordinates",
                  PList [PList [PFloat 103.8; PFloat 1.3];
                         PList [PFloat 103.9; PFloat 1.4]])]) /\
  feature_printed
    (PDict [("type", PStr "Feature"); ("properties", PNone);
            ("geometry",
              PDict [("type", PStr "LineString");
                     ("coordinates",
                       PList [PList [PFloat 103.8; PFloat 1.3];
                              PList [PFloat 103.9; PFloat 1.4]])])]) = [].
Proof.
  split; [reflexivity |].
  apply (non_point_skipped_silently
           [("type", PStr "Feature"); ("properties", PNone);
            ("geometry",
              PDict [("type", PStr "LineString");
                     ("coordinates",
                       PList [PList [PFloat 103.8; PFloat 1.3];
                              PList [PFloat 103.9; PFloat 1.4]])])]
           (PDict [("type", PStr "LineString");
                   ("coordinates",
                     PList [PList [PFloat 103.8; PFloat 1.3];
                            PList [PFloat 103.9; PFloat 1.4]])])
           (PList [PList [PFloat 103.8; PFloat 1.3];
                   PList [PFloat 103.9; PFloat 1.4]])).
  - reflexivity.
  - reflexivity.
  - right. exists (PStr "LineString"). split; reflexivity.
Defined.

(** X3: A point whose coordinate list has a single element is reported with an
    [IndexError] and adds no record, whatever its description says. *)
Theorem short_coordinates_reported (fd gd : list (string * pyval)) (a : pyval) :
  Py.get (PDict fd) "geometry" (PDict []) = inr (PDict gd) ->
  Py.get (PDict gd) "type" PNone = inr (PStr "Point") ->
  Py.get (PDict gd) "coordinates" PNone = inr (PList [a]) ->
  feature_body (PDict fd) = inl IndexError /\
  feature_records (PDict fd) = [] /\
  feature_printed (PDict fd) = [SkippingFeature IndexError].
Proof.
  intros Hg Hty Hc.
  assert (Hbody : feature_body (PDict fd) = inl IndexError).
  { unfold feature_body.
    assert (Hp : exists properties,
               Py.get (PDict fd) "properties" (PDict []) = inr properties).
    { simpl. destruct (Py.dict_get fd "properties"); eexists; reflexivity. }
    destruct Hp as [properties ->]. cbn [Py.bind].
    rewrite Hg. cbn [Py.bind]. rewrite Hc. cbn [Py.bind Py.truthy negb].
    rewrite Hty. reflexivity. }
  unfold feature_records, feature_printed. now rewrite Hbody.
Qed.

Lemma short_coordinates_reported_witness :
  Py.get (sample_feature (PList [PFloat 103.9]) "BEDOK MRT STATION")
         "geometry" (PDict [])
  = inr (PDict [("type", PStr "Point");
                ("coordinates", PList [PFloat 103.9])]) /\
  feature_printed (sample_feature (PList [PFloat 103.9]) "BEDOK MRT STATION")
  = [SkippingFeature IndexError].
Proof.
  split; [reflexivity |].
  apply (short_coordinates_reported
           [("type", PStr "Feature");
            ("properties",
              PDict [("Name", PStr "kml_1");
                     ("Description",
                       PStr ("<center><table><tr><th>STATION_NA</th> <td>"
                             ++ "BEDOK MRT STATION"
                             ++ "</td></tr></table></center>"))]);
            ("geometry",
              PDict [("type", PStr "Point");
                     ("coordinates", PList [PFloat 103.9])])]
           [("type", PStr "Point"); ("coordinates", PList [PFloat 103.9])]
           (PFloat 103.9)); reflexivity.
Defined.

Lemma feature_output_le_1 (feature : pyval) :
  (List.length (feature_printed feature)
   + List.length (feature_records feature) <= 1)%nat.
Proof.
  unfold feature_printed, feature_records.
  destruct (feature_body feature) as [e | [r |]]; simpl; lia.
Qed.

Lemma flat_map_output_length (features : list pyval) :
  (List.length (flat_map feature_printed features)
   + List.length (flat_map feature_records features)
   <= List.length features)%nat.
Proof.
  induction features as [| f fs IH]; simpl; [lia |].
  rewrite !length_app. pose proof (feature_output_le_1 f). lia.
Qed.

(** X4: Each feature of a list gives a record, or a message, or neither, never
    both: records and messages together are at most as many as the
    features, and every message is the one of a skipped feature. *)
Theorem extractor_output_counts (geojson_path : string)
    (d : list (string * pyval)) (features : list pyval)
    (out : list printed) (stations : list station) :
  Py.dict_get d "features" = Some (PList features) ->
  load_mrt_data_from_geojson geojson_path (inr (PDict d))
    = (out, Returns stations) ->
  (List.length out + List.length stations <= List.length features)%nat /\
  (forall line, In line out -> exists e, line = SkippingFeature e).
Proof.
  intros Hfeat Hload.
  rewrite (load_iterable geojson_path d (PList features) features) in Hload;
    [| simpl; now rewrite Hfeat | reflexivity].
  inversion Hload; subst. split; [apply flat_map_output_length |].
  intros line Hin. apply in_flat_map in Hin. destruct Hin as (f & _ & Hin).
  unfold feature_printed in Hin.
  destruct (feature_body f) as [e | [r |]]; simpl in Hin; try contradiction.
  destruct Hin as [<- | []]. now exists e.
Qed.

Lemma extractor_output_counts_witness :
  Py.dict_get sample_collection "features" = Some (PList sample_features) /\
  load_mrt_data_from_geojson "exits.geojson" (inr (PDict sample_collection))
  = ([SkippingFeature AttributeError; SkippingFeature IndexError],
     Returns [("ORCHARD MRT STATION", (PFloat 1.3, PFloat 103.8));
              ("ORCHARD MRT STATION", (PFloat 1.3, PFloat 103.8))]) /\
  (2 + 2 <= List.length sample_features)%nat.
Proof.
  assert (Hload :
    load_mrt_data_from_geojson "exits.geojson" (inr (PDict sample_collection))
    = ([SkippingFeature AttributeError; SkippingFeature IndexError],
       Returns [("ORCHARD MRT STATION", (PFloat 1.3, PFloat 103.8));
                ("ORCHARD MRT STATION", (PFloat 1.3, PFloat 103.8))]))
    by (vm_compute; reflexivity).
  split; [reflexivity |]. split; [exact Hload |].
  exact (proj1 (extractor_output_counts "exits.geojson" sample_collection
                  sample_features _ _ eq_refl Hload)).
Defined.

(** X5: Every name in a returned list is trimmed, holds no line feed and is
    not empty. (Another character inside the name, a carriage return for
    one, is kept: see [carriage_return_kept].) *)
Theorem station_names_trimmed (geojson_path : string) (opened : exn + pyval)
    (out : list printed) (stations : list station)
    (name : string) (coords : pyval * pyval) :
  load_mrt_data_from_geojson geojson_path opened = (out, Returns stations) ->
  In (name, coords) stations ->
  leading_space name = false /\ trailing_space name = false /\
  newline_free name = true /\ name <> EmptyString.
Proof.
  intros Hload Hin.
  destruct (returned_station_accepted _ _ _ _ _ Hload Hin) as [feature Hbody].
  destruct coords as [lat lon]. apply feature_body_accepts in Hbody.
  destruct Hbody as (props & geometry & coordinates & html & group1 &
                     _ & _ & _ & _ & _ & _ & _ & _ & Hsearch & -> & Hmrt).
  destruct (StripFacts.strip_trimmed group1) as [Hlead Htrail].
  split; [exact Hlead |]. split; [exact Htrail |]. split.
  - apply StripFacts.strip_newline_free.
    apply PatternFacts.search_group_sound in Hsearch.
    now destruct Hsearch as (pre & post & _ & Hfree & _).
  - intros Hempty. rewrite Hempty in Hmrt. discriminate.
Qed.

Lemma station_names_trimmed_witness :
  load_mrt_data_from_geojson "exits.geojson" (inr (PDict sample_collection))
  = ([SkippingFeature AttributeError; SkippingFeature IndexError],
     Returns [("ORCHARD MRT STATION", (PFloat 1.3, PFloat 103.8));
              ("ORCHARD MRT STATION", (PFloat 1.3, PFloat 103.8))]) /\
  leading_space "ORCHARD MRT STATION" = false /\
  trailing_space "ORCHARD MRT STATION" = false /\
  newline_free "ORCHARD MRT STATION" = true /\
  "ORCHARD MRT STATION"%string <> EmptyString.
Proof.
  assert (Hload :
    load_mrt_data_from_geojson "exits.geojson" (inr (PDict sample_collection))
    = ([SkippingFeature AttributeError; SkippingFeature IndexError],
       Returns [("ORCHARD MRT STATION", (PFloat 1.3, PFloat 103.8));
                ("ORCHARD MRT STATION", (PFloat 1.3, PFloat 103.8))]))
    by (vm_compute; reflexivity).
  split; [exact Hload |].
  apply (station_names_trimmed "exits.geojson" (inr (PDict sample_collection))
           _ _ "ORCHARD MRT STATION" (PFloat 1.3, PFloat 103.8) Hload).
  simpl. left. reflexivity.
Defined.

(** X6: The name of an accepted feature is the trimmed text of the leftmost
    station-name row of its description whose cell stays on one line; the cell
    ends at the first closing tag. *)
Theorem station_name_is_first_cell (feature : pyval) (name : string)
    (coords : pyval * pyval) :
  feature_body feature = inr (Some (name, coords)) ->
  exists properties html pre cell post,
    Py.get feature "properties" (PDict []) = inr properties /\
    Py.get properties "Description" (PStr "") = inr (PStr html) /\
    station_row html pre cell post /\
    name = Str.strip cell /\
    newline_free cell = true /\
    Str.contains STATION_NA_close cell = false /\
    (forall pre' cell' post',
        station_row html pre' cell' post' -> newline_free cell' = true ->
        (String.length pre <= String.length pre')%nat).
Proof.
  destruct coords as [lat lon]. intros Hbody.
  apply feature_body_accepts in Hbody.
  destruct Hbody as (props & geometry & coordinates & html & cell &
                     Hp & _ & _ & _ & _ & _ & _ & Hd & Hsearch & Hname & _).
  apply PatternFacts.search_group_sound in Hsearch.
  destruct Hsearch as (pre & post & Hs & Hfree & Hmin & Hleft).
  exists props, html, pre, cell, post.
  split; [exact Hp |]. split; [exact Hd |]. split; [exact Hs |].
  split; [exact Hname |]. split; [exact Hfree |]. split; [| exact Hleft].
  destruct (Str.contains STATION_NA_close cell) eqn:Hin; [| reflexivity].
  apply StrFacts.contains_iff in Hin. destruct Hin as (a & b & Hcell).
  specialize (Hmin a (STATION_NA_close ++ b)%string Hcell).
  rewrite string_app_assoc in Hmin.
  assert (Hst : Str.starts_with STATION_NA_close
                  (STATION_NA_close ++ b ++ STATION_NA_close ++ post)%string
                = true)
    by (apply StrFacts.starts_with_iff; eexists; reflexivity).
  rewrite Hmin in Hst; [discriminate | discriminate].
Qed.

Lemma station_name_is_first_cell_witness :
  feature_body
    (PDict [("properties",
              PDict [("Description",
                       PStr ("<td>x</td> <th>STATION_NA</th> <td> BEDOK MRT "
                             ++ "STATION</td> <th>STATION_NA</th> <td>TAMPINES"
                             ++ " MRT STATION</td>"))]);
            ("geometry",
              PDict [("type", PStr "Point");
                     ("coordinates", PList [PFloat 103.9; PFloat 1.3])])])
  = inr (Some ("BEDOK MRT STATION", (PFloat 1.3, PFloat 103.9))) /\
  exists properties html pre cell post,
    Py.get
      (PDict [("properties",
                PDict [("Description",
                         PStr ("<td>x</td> <th>STATION_NA</th> <td> BEDOK MRT "
                               ++ "STATION</td> <th>STATION_NA</th> <td>TAMPINES"
                               ++ " MRT STATION</td>"))]);
              ("geometry",
                PDict [("type", PStr "Point");
                       ("coordinates", PList [PFloat 103.9; PFloat 1.3])])])
      "properties" (PDict []) = inr properties /\
    Py.get properties "Description" (PStr "") = inr (PStr html) /\
    station_row html pre cell post /\
    "BEDOK MRT STATION"%string = Str.strip cell /\
    newline_free cell = true /\
    Str.contains STATION_NA_close cell = false /\
    (forall pre' cell' post',
        station_row html pre' cell' post' -> newline_free cell' = true ->
        (String.length pre <= String.length pre')%nat).
Proof.
  split; [vm_compute; reflexivity |].
  apply (station_name_is_first_cell _ "BEDOK MRT STATION"
           (PFloat 1.3, PFloat 103.9)).
  vm_compute. reflexivity.
Defined.

(** X7: The pattern finds nothing exactly when the description has no
    station-name row whose cell stays on one line; a feature with such a
    description (or without one) adds no record. *)
Theorem no_station_row_no_station :
  (forall html,
      re_search_station (PStr html) = inr None <->
      (forall pre cell post,
          station_row html pre cell post -> newline_free cell = false)) /\
  (forall feature properties html,
      Py.get feature "properties" (PDict []) = inr properties ->
      Py.get properties "Description" (PStr "") = inr (PStr html) ->
      re_search_station (PStr html) = inr None ->
      feature_records feature = []).
Proof.
  split.
  - intros html. unfold re_search_station, Py.ret, station_row. split.
    + intros H. injection H as H. now apply PatternFacts.search_group_none.
    + intros Hnone.
      destruct (Str.search_group STATION_NA_open STATION_NA_close html)
        as [cell |] eqn:Hsearch; [| reflexivity].
      apply PatternFacts.search_group_sound in Hsearch.
      destruct Hsearch as (pre & post & Hs & Hfree & _).
      rewrite (Hnone pre cell post Hs) in Hfree. discriminate.
  - intros feature properties html Hp Hd Hnone.
    unfold feature_records.
    destruct (feature_body feature) as [e | [[name [lat lon]] |]] eqn:Hbody;
      try reflexivity.
    apply feature_body_accepts in Hbody.
    destruct Hbody as (props' & geometry & coordinates & html' & cell &
                       Hp' & _ & _ & _ & _ & _ & _ & Hd' & Hsearch & _).
    rewrite Hp in Hp'. injection Hp' as <-.
    rewrite Hd in Hd'. injection Hd' as <-.
    unfold re_search_station, Py.ret in Hnone. rewrite Hsearch in Hnone.
    discriminate.
Qed.

Lemma no_station_row_no_station_witness :
  re_search_station
    (PStr ("<th>STATION_NA</th> <td>ORCHARD"
           ++ String Str.newline " MRT STATION</td>"))
  = inr None /\
  feature_records
    (PDict [("properties",
              PDict [("Description",
                       PStr ("<th>STATION_NA</th> <td>ORCHARD"
                             ++ String Str.newline " MRT STATION</td>"))]);
            ("geometry",
              PDict [("type", PStr "Point");
                     ("coordinates", PList [PFloat 103.8; PFloat 1.3])])])
  = [].
Proof.
  split; [vm_compute; reflexivity |].
  apply (proj2 no_station_row_no_station _
           (PDict [("Description",
                     PStr ("<th>STATION_NA</th> <td>ORCHARD"
                           ++ String Str.newline " MRT STATION</td>"))])
           ("<th>STATION_NA</th> <td>ORCHARD"
            ++ String Str.newline " MRT STATION</td>")%string);
    vm_compute; reflexivity.
Defined.

(** ** More on the order of floats *)

Module FloatMore.

Lemma SFltb_inf (a : spec_float) : SFltb (S754_infinity false) a = false.
Proof. destruct a as [[]|[]| |[] m e]; reflexivity. Qed.

(** Two numbers below infinity of which neither is below the other are
    equal for [==]. *)
Lemma SFeqb_of_not_ltb (a b : spec_float) :
  SFltb a (S754_infinity false) = true ->
  SFltb b (S754_infinity false) = true ->
  SFltb a b = false -> SFltb b a = false -> SFeqb a b = true.
Proof.
  unfold SFltb, SFeqb, SFcompare.
  destruct a as [[]|[]| |[] ma ea], b as [[]|[]| |[] mb eb];
    simpl; intros Ha Hb Hab Hba; try discriminate; try reflexivity;
    rewrite ?FloatOrder.pos_compare_cont_eq in *;
    FloatOrder.compare_cases.
Qed.

Lemma ltb_inf (x : float) : (infinity <? x) = false.
Proof.
  rewrite ltb_spec. change (Prim2SF infinity) with (S754_infinity false).
  apply SFltb_inf.
Qed.

Lemma eqb_of_not_ltb (x y : float) :
  (x <? infinity) = true -> (y <? infinity) = true ->
  (x <? y) = false -> (y <? x) = false -> (x =? y) = true.
Proof.
  rewrite FloatAxioms.eqb_spec, !ltb_spec.
  change (Prim2SF infinity) with (S754_infinity false).
  apply SFeqb_of_not_ltb.
Qed.

Lemma SFabs_opp (a : spec_float) : SFabs (SFopp a) = SFabs a.
Proof. destruct a; reflexivity. Qed.

(** Negation changes the sign only. *)
Lemma abs_opp (x : float) : abs (- x) = abs x.
Proof.
  apply Prim2SF_inj. now rewrite !abs_spec, opp_spec, SFabs_opp.
Qed.

End FloatMore.

(** ** The search loop, further *)

Section ScanMore.

Variable haversine : coord -> coord -> float.
Variable center_point : coord.

(** The distance held by the loop is infinity or below it. *)
Lemma scan_bound (seen : list exit_record) (name : string) (d : float)
    (found : option coord) :
  scan haversine center_point seen = (name, d, found) ->
  d = infinity \/ (d <? infinity) = true.
Proof.
  intros Hscan. pose proof (scan_invariant haversine center_point seen) as Hinv.
  rewrite Hscan in Hinv. unfold scan_inv in Hinv.
  destruct found as [coords |].
  - destruct Hinv as (i & _ & _ & Hfin & _). now right.
  - destruct Hinv as (_ & -> & _). now left.
Qed.

(** What the loop holds is a station of the catalog, at its distance. *)
Lemma scan_found_in (seen : list exit_record) (name : string) (d : float)
    (coords : coord) :
  scan haversine center_point seen = (name, d, Some coords) ->
  In (name, coords) seen /\ d = haversine center_point coords /\
  (d <? infinity) = true /\
  (forall s, In s seen -> (haversine center_point (snd s) <? d) = false).
Proof.
  intros Hscan. pose proof (scan_invariant haversine center_point seen) as Hinv.
  rewrite Hscan in Hinv. unfold scan_inv in Hinv.
  destruct Hinv as (i & Hi & Hd & Hfin & Hmin & _).
  split; [now apply nth_error_In with i |]. split; [exact Hd |].
  split; [exact Hfin |].
  intros s Hin. apply In_nth_error in Hin. destruct Hin as [j Hj].
  now apply Hmin with j.
Qed.

Lemma scan_none (seen : list exit_record) (name : string) (d : float) :
  scan haversine center_point seen = (name, d, None) ->
  name = "Unknown"%string /\ d = infinity /\
  (forall s, In s seen -> (haversine center_point (snd s) <? infinity) = false).
Proof.
  intros Hscan. pose proof (scan_invariant haversine center_point seen) as Hinv.
  now rewrite Hscan in Hinv.
Qed.

Lemma scan_cons_app (l1 l2 : list exit_record) (s : exit_record) :
  scan haversine center_point (l1 ++ s :: l2) =
  fold_left (scan_step haversine center_point) l2
    (scan_step haversine center_point (scan haversine center_point l1) s).
Proof. unfold scan. now rewrite fold_left_app. Qed.

(** A station whose distance does not compare below infinity (a NaN) is as
    good as absent from the catalog. *)
Lemma scan_skips_unreachable (l1 l2 : list exit_record) (s : exit_record) :
  (haversine center_point (snd s) <? infinity) = false ->
  scan haversine center_point (l1 ++ s :: l2)
  = scan haversine center_point (l1 ++ l2).
Proof.
  intros Hnan. rewrite scan_cons_app. unfold scan at 2.
  rewrite fold_left_app. f_equal. fold (scan haversine center_point l1).
  destruct (scan haversine center_point l1) as [[name d] found] eqn:Hscan.
  destruct s as [sname scoords]. unfold scan_step. simpl in Hnan.
  destruct (scan_bound _ _ _ _ Hscan) as [-> | Hd].
  - now rewrite Hnan.
  - destruct (haversine center_point scoords <? d) eqn:Hlt; [| reflexivity].
    now rewrite (FloatOrder.ltb_trans _ _ _ Hlt Hd) in Hnan.
Qed.

(** With more stations the distance found is never greater. *)
Lemma scan_app_not_farther (l l' : list exit_record)
    (name name' : string) (d d' : float) (found found' : option coord) :
  scan haversine center_point l = (name, d, found) ->
  scan haversine center_point (l ++ l') = (name', d', found') ->
  (d <? d') = false.
Proof.
  intros Hl Hll'. destruct found as [coords |].
  - apply scan_found_in in Hl. destruct Hl as (Hin & -> & Hfin & _).
    destruct found' as [coords' |].
    + apply scan_found_in in Hll'. destruct Hll' as (_ & _ & _ & Hmin).
      apply (Hmin (name, coords)). apply in_or_app. now left.
    + apply scan_none in Hll'. destruct Hll' as (_ & _ & Hnone).
      specialize (Hnone (name, coords)). simpl in Hnone.
      rewrite Hnone in Hfin; [discriminate |]. apply in_or_app. now left.
  - apply scan_none in Hl. destruct Hl as (_ & -> & _).
    apply FloatMore.ltb_inf.
Qed.

(** Two catalogs with the same stations, in whatever order and number, give
    the same distance: either both searches find nothing, or both find a
    station and the two distances are equal for [==]. *)
Lemma scan_same_members (l l' : list exit_record)
    (name name' : string) (d d' : float) (found found' : option coord) :
  (forall s, In s l <-> In s l') ->
  scan haversine center_point l = (name, d, found) ->
  scan haversine center_point l' = (name', d', found') ->
  (found = None /\ found' = None /\ d = infinity /\ d' = infinity) \/
  (found <> None /\ found' <> None /\ (d =? d') = true).
Proof.
  intros Hsame Hl Hl'.
  destruct found as [coords |], found' as [coords' |].
  - right. split; [discriminate |]. split; [discriminate |].
    apply scan_found_in in Hl, Hl'.
    destruct Hl as (Hin & Hd & Hfin & Hmin).
    destruct Hl' as (Hin' & Hd' & Hfin' & Hmin').
    apply FloatMore.eqb_of_not_ltb; try assumption.
    + rewrite Hd. apply (Hmin' (name, coords)). now apply Hsame.
    + rewrite Hd'. apply (Hmin (name', coords')). now apply Hsame.
  - exfalso. apply scan_found_in in Hl. apply scan_none in Hl'.
    destruct Hl as (Hin & -> & Hfin & _). destruct Hl' as (_ & _ & Hnone).
    assert (Hn := Hnone (name, coords) (proj1 (Hsame _) Hin)).
    simpl in Hn. rewrite Hn in Hfin. discriminate.
  - exfalso. apply scan_found_in in Hl'. apply scan_none in Hl.
    destruct Hl' as (Hin & -> & Hfin & _). destruct Hl as (_ & _ & Hnone).
    assert (Hn := Hnone (name', coords') (proj2 (Hsame _) Hin)).
    simpl in Hn. rewrite Hn in Hfin. discriminate.
  - left. apply scan_none in Hl, Hl'.
    destruct Hl as (_ & -> & _), Hl' as (_ & -> & _). now repeat split.
Qed.

End ScanMore.

(** ** The locator, further *)

Section LocatorMore.

Variable haversine : coord -> coord -> float.

Lemma add_markers_zoom (locations : list coord) (m : Map) :
  zoom_start (fold_left (fun m loc => add_to (input_marker loc) m) locations m)
  = zoom_start m.
Proof.
  revert m. induction locations as [| loc locs IH]; intros m; simpl;
    [reflexivity | now rewrite IH].
Qed.

Lemma build_map_zoom (locations : list coord) (center_point : coord)
    (name : string) (found : option coord) :
  zoom_start (build_map locations center_point name found) = 14%Z.
Proof.
  unfold build_map.
  destruct found as [c |]; cbn [add_to zoom_start];
    rewrite add_markers_zoom;
    now destruct (3 <=? List.length locations)%nat.
Qed.

Lemma locator_nonempty (locations : list coord)
    (mrt_exits_list : list exit_record) :
  locations <> [] -> mrt_exits_list <> [] ->
  get_interactive_map_and_mrt_geojson haversine locations mrt_exits_list
  = (let '(name, d, found) :=
       scan haversine (center_of locations) mrt_exits_list in
     (result_string_of name d,
      Some (build_map locations (center_of locations) name found))).
Proof.
  destruct locations as [| loc locs]; [contradiction |].
  destruct mrt_exits_list as [| s cat]; [contradiction |]. reflexivity.
Qed.

(** X8: With an empty location list or an empty catalog the locator returns
    no map and a text that begins with "Error: ". And whenever the locator
    returns a pair, the map is missing exactly when one of the two arguments
    is empty, and exactly then the text begins with "Error: ". *)
Theorem error_iff_no_map (locations : list coord)
    (mrt_exits_list : list exit_record) :
  (locations = [] \/ mrt_exits_list = [] ->
   snd (get_interactive_map_and_mrt_geojson haversine locations mrt_exits_list)
   = None /\
   Str.starts_with "Error: "
     (fst (get_interactive_map_and_mrt_geojson haversine
             locations mrt_exits_list)) = true) /\
  (forall summary returned_map,
      get_interactive_map_and_mrt_geojson haversine locations mrt_exits_list
        = (summary, returned_map) ->
      (returned_map = None <-> locations = [] \/ mrt_exits_list = []) /\
      (Str.starts_with "Error: " summary = true <-> returned_map = None)).
Proof.
  split.
  - intros [-> | ->]; [now split |].
    destruct locations; now split.
  - intros summary returned_map Hcall.
    destruct locations as [| loc locs].
    + injection Hcall as <- <-.
      split; (split; [intros _; try now left | reflexivity]).
      reflexivity.
    + destruct mrt_exits_list as [| s cat].
      * injection Hcall as <- <-.
        split; (split; [intros _; try now right | reflexivity]).
        reflexivity.
      * rewrite locator_nonempty in Hcall by discriminate.
        destruct (scan haversine (center_of (loc :: locs)) (s :: cat))
          as [[name d] found].
        injection Hcall as <- <-.
        split; (split; [| try discriminate; intros [H | H]; discriminate]);
          [discriminate |].
        unfold result_string_of. simpl. discriminate.
Qed.

(** X9: The layers of the map of a successful call, in the order they are added:
    the polygon when there are three locations or more, one marker per input
    location in input order, the centre marker, and at most one station
    marker, at a station of the catalog, named as in the summary. The zoom
    is 14. *)
Theorem map_layers (locations : list coord) (mrt_exits_list : list exit_record)
    (summary : string) (m : Map) :
  get_interactive_map_and_mrt_geojson haversine locations mrt_exits_list
    = (summary, Some m) ->
  zoom_start m = 14%Z /\
  exists station_layers,
    children m
    = (if (3 <=? List.length locations)%nat
       then [input_polygon locations] else [])
      ++ map input_marker locations
      ++ center_marker (center_of locations) :: station_layers /\
    (station_layers = [] \/
     exists name coords,
       In (name, coords) mrt_exits_list /\
       station_layers = [station_marker coords name] /\
       summary
       = result_string_of name (haversine (center_of locations) coords)).
Proof.
  intros Hcall. apply locator_success in Hcall.
  destruct Hcall as (_ & _ & name & d & found & Hscan & -> & ->).
  split; [apply build_map_zoom |]. eexists. split.
  - rewrite build_map_children. reflexivity.
  - destruct found as [coords |]; [right | now left].
    apply scan_found_in in Hscan. destruct Hscan as (Hin & -> & _).
    now exists name, coords.
Qed.

End LocatorMore.

Lemma format_2f_inf_iff (x : float) :
  Fmt.format_2f x = "inf"%string <-> x = infinity.
Proof.
  split; [| intros ->; reflexivity].
  unfold Fmt.format_2f. destruct (Prim2SF x) as [s | s | | s m e] eqn:Hx.
  - destruct s; discriminate.
  - destruct s; [discriminate |]. intros _. now apply Prim2SF_inj.
  - discriminate.
  - destruct s; [discriminate |]. unfold Fmt.fixed2. cbn [Fmt.sign append].
    pose proof (FmtFacts.digits_not_empty (Fmt.hundredths m e / 100)) as Hne.
    pose proof (FmtFacts.digits_all_digits (Fmt.hundredths m e / 100)) as Hall.
    destruct (Fmt.digits (Fmt.hundredths m e / 100)) as [| c rest];
      [contradiction |].
    simpl in Hall. apply andb_true_iff in Hall. destruct Hall as [Hc _].
    intros H. injection H as -> _. discriminate.
Qed.

Lemma no_station_marker_among_inputs (locations : list coord) :
  existsb is_station_marker (map input_marker locations) = false.
Proof.
  induction locations as [| loc locs IH]; simpl; [reflexivity | exact IH].
Qed.

Lemma build_map_station_marker (locations : list coord) (center_point : coord)
    (name : string) (found : option coord) :
  existsb is_station_marker
    (children (build_map locations center_point name found))
  = match found with
    | Some _ => true
    | None => false
    end.
Proof.
  rewrite build_map_children, !existsb_app, no_station_marker_among_inputs.
  destruct (3 <=? List.length locations)%nat, found; reflexivity.
Qed.

Section LocatorOutcomes.

Variable haversine : coord -> coord -> float.

(** X10: On a successful call the station marker is on the map exactly when some
    station is at a distance that compares below infinity; and it is missing
    exactly when the distance printed in the summary is "inf". *)
Theorem station_marker_iff (locations : list coord)
    (mrt_exits_list : list exit_record) (summary : string) (m : Map) :
  get_interactive_map_and_mrt_geojson haversine locations mrt_exits_list
    = (summary, Some m) ->
  (existsb is_station_marker (children m) = true <->
   exists s, In s mrt_exits_list /\
             (haversine (center_of locations) (snd s) <? infinity) = true) /\
  exists name d found,
    scan haversine (center_of locations) mrt_exits_list = (name, d, found) /\
    summary = result_string_of name d /\
    (Fmt.format_2f d = "inf"%string <->
     existsb is_station_marker (children m) = false).
Proof.
  intros Hcall. apply locator_success in Hcall.
  destruct Hcall as (_ & _ & name & d & found & Hscan & -> & ->).
  rewrite build_map_station_marker. split.
  - destruct found as [coords |].
    + apply scan_found_in in Hscan. destruct Hscan as (Hin & -> & Hfin & _).
      split; [intros _ | reflexivity]. now exists (name, coords).
    + apply scan_none in Hscan. destruct Hscan as (_ & _ & Hnone).
      split; [discriminate |]. intros (s & Hin & Hfin).
      now rewrite (Hnone s Hin) in Hfin.
  - exists name, d, found. split; [exact Hscan |]. split; [reflexivity |].
    rewrite format_2f_inf_iff. destruct found as [coords |].
    + apply scan_found_in in Hscan. destruct Hscan as (_ & _ & Hfin & _).
      split; [| discriminate]. intros ->.
      now rewrite FloatOrder.ltb_irrefl in Hfin.
    + apply scan_none in Hscan. now destruct Hscan as (_ & -> & _).
Qed.

(** X11: A station whose distance from the centroid does not compare below
    infinity (its distance is NaN) changes nothing: with it or without it the
    locator returns the same summary and the same map, as long as another
    station is left in the catalog. *)
Theorem unreachable_station_ignored (locations : list coord)
    (l1 l2 : list exit_record) (s : exit_record) :
  l1 ++ l2 <> [] ->
  (haversine (center_of locations) (snd s) <? infinity) = false ->
  get_interactive_map_and_mrt_geojson haversine locations (l1 ++ s :: l2)
  = get_interactive_map_and_mrt_geojson haversine locations (l1 ++ l2).
Proof.
  intros Hleft Hnan. destruct locations as [| loc locs].
  - now destruct (l1 ++ s :: l2), (l1 ++ l2).
  - rewrite !locator_nonempty; try discriminate; try assumption.
    + now rewrite scan_skips_unreachable.
    + now destruct l1.
Qed.

(** X12: The order of the catalog, and how often a station is listed, decide only
    between stations at equal distance: two catalogs with the same members
    give distances that are equal for [==], or both give no station and then
    the same summary. *)
Theorem distance_independent_of_order (locations : list coord)
    (cat cat' : list exit_record) (summary summary' : string) (m m' : Map) :
  (forall s, In s cat <-> In s cat') ->
  get_interactive_map_and_mrt_geojson haversine locations cat
    = (summary, Some m) ->
  get_interactive_map_and_mrt_geojson haversine locations cat'
    = (summary', Some m') ->
  exists name d found name' d' found',
    scan haversine (center_of locations) cat = (name, d, found) /\
    scan haversine (center_of locations) cat' = (name', d', found') /\
    summary = result_string_of name d /\
    summary' = result_string_of name' d' /\
    ((d =? d') = true \/ (summary = summary' /\ m = m')).
Proof.
  intros Hsame Hcall Hcall'. apply locator_success in Hcall, Hcall'.
  destruct Hcall as (_ & _ & name & d & found & Hscan & -> & ->).
  destruct Hcall' as (_ & _ & name' & d' & found' & Hscan' & -> & ->).
  exists name, d, found, name', d', found'.
  split; [exact Hscan |]. split; [exact Hscan' |].
  split; [reflexivity |]. split; [reflexivity |].
  destruct (scan_same_members _ _ _ _ _ _ _ _ _ _ Hsame Hscan Hscan')
    as [(-> & -> & -> & ->) | (_ & _ & Heq)]; [right | now left].
  apply scan_none in Hscan, Hscan'.
  destruct Hscan as (-> & _), Hscan' as (-> & _). now split.
Qed.

(** X13: Adding stations at the end of the catalog never gives a greater
    distance. *)
Theorem more_stations_not_farther (locations : list coord)
    (cat more : list exit_record) (summary summary' : string) (m m' : Map) :
  get_interactive_map_and_mrt_geojson haversine locations cat
    = (summary, Some m) ->
  get_interactive_map_and_mrt_geojson haversine locations (cat ++ more)
    = (summary', Some m') ->
  exists name d found name' d' found',
    scan haversine (center_of locations) cat = (name, d, found) /\
    scan haversine (center_of locations) (cat ++ more) = (name', d', found') /\
    summary = result_string_of name d /\
    summary' = result_string_of name' d' /\
    (d <? d') = false.
Proof.
  intros Hcall Hcall'. apply locator_success in Hcall, Hcall'.
  destruct Hcall as (_ & _ & name & d & found & Hscan & -> & ->).
  destruct Hcall' as (_ & _ & name' & d' & found' & Hscan' & -> & ->).
  exists name, d, found, name', d', found'.
  split; [exact Hscan |]. split; [exact Hscan' |].
  split; [reflexivity |]. split; [reflexivity |].
  now apply (scan_app_not_farther _ _ _ _ _ _ _ _ _ _ Hscan Hscan').
Qed.

End LocatorOutcomes.

Lemma triangle_call :
  get_interactive_map_and_mrt_geojson chart_km triangle alpha_beta
  = ("The nearest MRT station is: BETA MRT STATION (distance: 3.67 km)"%string,
     Some (build_map triangle (center_of triangle)
             "BETA MRT STATION" (Some (1.31, 103.81)))).
Proof. vm_compute. reflexivity. Qed.

Lemma tie_call :
  get_interactive_map_and_mrt_geojson chart_km [(1, 103)] tie_catalog
  = ("The nearest MRT station is: NORTH MRT STATION (distance: 55.60 km)"%string,
     Some (build_map [(1, 103)] (1, 103)
             "NORTH MRT STATION" (Some (1.5, 103)))).
Proof. vm_compute. reflexivity. Qed.

Lemma tie_call_reordered :
  get_interactive_map_and_mrt_geojson chart_km [(1, 103)] tie_catalog_reordered
  = ("The nearest MRT station is: SOUTH MRT STATION (distance: 55.60 km)"%string,
     Some (build_map [(1, 103)] (1, 103)
             "SOUTH MRT STATION" (Some (0.5, 103)))).
Proof. vm_compute. reflexivity. Qed.

Lemma far_call :
  get_interactive_map_and_mrt_geojson chart_km [(1, 103)]
    [("FAR MRT STATION"%string, (3, 103))]
  = ("The nearest MRT station is: FAR MRT STATION (distance: 222.39 km)"%string,
     Some (build_map [(1, 103)] (1, 103)
             "FAR MRT STATION" (Some (3, 103)))).
Proof. vm_compute. reflexivity. Qed.

Lemma map_layers_witness :
  get_interactive_map_and_mrt_geojson chart_km triangle alpha_beta
  = ("The nearest MRT station is: BETA MRT STATION (distance: 3.67 km)"%string,
     Some (build_map triangle (center_of triangle)
             "BETA MRT STATION" (Some (1.31, 103.81)))) /\
  zoom_start (build_map triangle (center_of triangle)
                "BETA MRT STATION" (Some (1.31, 103.81))) = 14%Z.
Proof.
  split; [exact triangle_call |].
  exact (proj1 (map_layers chart_km _ _ _ _ triangle_call)).
Defined.

Lemma station_marker_iff_witness :
  get_interactive_map_and_mrt_geojson chart_km triangle alpha_beta
  = ("The nearest MRT station is: BETA MRT STATION (distance: 3.67 km)"%string,
     Some (build_map triangle (center_of triangle)
             "BETA MRT STATION" (Some (1.31, 103.81)))) /\
  (existsb is_station_marker
     (children (build_map triangle (center_of triangle)
                  "BETA MRT STATION" (Some (1.31, 103.81)))) = true <->
   exists s, In s alpha_beta /\
             (chart_km (center_of triangle) (snd s) <? infinity) = true).
Proof.
  split; [exact triangle_call |].
  exact (proj1 (station_marker_iff chart_km _ _ _ _ triangle_call)).
Defined.

Lemma unreachable_station_ignored_witness :
  [("ALPHA MRT STATION"%string, (1.30, 103.80))]
    ++ [("BETA MRT STATION"%string, (1.31, 103.81))] <> [] /\
  (chart_km (center_of triangle) (snd ghost_station) <? infinity) = false /\
  get_interactive_map_and_mrt_geojson chart_km triangle
    ([("ALPHA MRT STATION"%string, (1.30, 103.80))]
       ++ ghost_station :: [("BETA MRT STATION"%string, (1.31, 103.81))])
  = get_interactive_map_and_mrt_geojson chart_km triangle
      ([("ALPHA MRT STATION"%string, (1.30, 103.80))]
         ++ [("BETA MRT STATION"%string, (1.31, 103.81))]).
Proof.
  split; [discriminate |]. split; [vm_compute; reflexivity |].
  apply (unreachable_station_ignored chart_km triangle
           [("ALPHA MRT STATION"%string, (1.30, 103.80))]
           [("BETA MRT STATION"%string, (1.31, 103.81))] ghost_station).
  - discriminate.
  - vm_compute. reflexivity.
Defined.

Lemma distance_independent_of_order_witness :
  (forall s, In s tie_catalog <-> In s tie_catalog_reordered) /\
  exists name d found name' d' found',
    scan chart_km (center_of [(1, 103)]) tie_catalog = (name, d, found) /\
    scan chart_km (center_of [(1, 103)]) tie_catalog_reordered
      = (name', d', found') /\
    "The nearest MRT station is: NORTH MRT STATION (distance: 55.60 km)"%string
      = result_string_of name d /\
    "The nearest MRT station is: SOUTH MRT STATION (distance: 55.60 km)"%string
      = result_string_of name' d' /\
    ((d =? d') = true \/
     ("The nearest MRT station is: NORTH MRT STATION (distance: 55.60 km)"%string
      = "The nearest MRT station is: SOUTH MRT STATION (distance: 55.60 km)"%string
      /\ build_map [(1, 103)] (1, 103) "NORTH MRT STATION" (Some (1.5, 103))
         = build_map [(1, 103)] (1, 103) "SOUTH MRT STATION" (Some (0.5, 103)))).
Proof.
  assert (Hsame : forall s, In s tie_catalog <-> In s tie_catalog_reordered)
    by (intros s; simpl; tauto).
  split; [exact Hsame |].
  exact (distance_independent_of_order chart_km [(1, 103)]
           tie_catalog tie_catalog_reordered _ _ _ _
           Hsame tie_call tie_call_reordered).
Defined.

Lemma more_stations_not_farther_witness :
  exists name d found name' d' found',
    scan chart_km (center_of [(1, 103)])
      [("FAR MRT STATION"%string, (3, 103))] = (name, d, found) /\
    scan chart_km (center_of [(1, 103)])
      ([("FAR MRT STATION"%string, (3, 103))]
         ++ [("NORTH MRT STATION"%string, (1.5, 103));
             ("SOUTH MRT STATION"%string, (0.5, 103))])
      = (name', d', found') /\
    "The nearest MRT station is: FAR MRT STATION (distance: 222.39 km)"%string
      = result_string_of name d /\
    "The nearest MRT station is: NORTH MRT STATION (distance: 55.60 km)"%string
      = result_string_of name' d' /\
    (d <? d') = false.
Proof.
  exact (more_stations_not_farther chart_km [(1, 103)]
           [("FAR MRT STATION"%string, (3, 103))]
           [("NORTH MRT STATION"%string, (1.5, 103));
            ("SOUTH MRT STATION"%string, (0.5, 103))] _ _ _ _
           far_call tie_call).
Defined.

(** ** The two-decimal format, further *)

Lemma hundredths_nearest (m : positive) (e : Z) :
  let h := Fmt.hundredths m e in
  let unit := (2 ^ Z.max 0 (- e))%Z in
  let exact := (100 * Z.pos m * 2 ^ Z.max 0 e)%Z in
  (0 <= h)%Z /\
  (2 * Z.abs (h * unit - exact) <= unit)%Z /\
  ((2 * Z.abs (h * unit - exact) = unit)%Z -> Z.even h = true).
Proof.
  unfold Fmt.hundredths. destruct (Z.leb_spec 0 e) as [He | He].
  - rewrite Z.max_l, Z.max_r by lia. cbn zeta.
    assert (0 < 2 ^ e)%Z by (apply Z.pow_pos_nonneg; lia).
    change (2 ^ 0)%Z with 1%Z.
    replace (Z.pos m * 100 * 2 ^ e * 1 - 100 * Z.pos m * 2 ^ e)%Z with 0%Z
      by ring.
    split; [nia |]. split; [simpl; lia |]. simpl. lia.
  - rewrite Z.max_r, Z.max_l by lia. cbn zeta.
    change (2 ^ 0)%Z with 1%Z. rewrite Z.mul_1_r.
    set (den := (2 ^ (- e))%Z). set (num := (Z.pos m * 100)%Z).
    assert (Hden : (0 < den)%Z) by (apply Z.pow_pos_nonneg; lia).
    assert (Hnum : (0 <= num)%Z) by (unfold num; lia).
    pose proof (Z.div_mod num den ltac:(lia)) as Hdiv.
    pose proof (Z.mod_pos_bound num den Hden) as Hmod.
    assert (Hq : (0 <= num / den)%Z) by (apply Z.div_pos; lia).
    replace (100 * Z.pos m)%Z with num by (unfold num; ring).
    destruct (Z.compare_spec (2 * (num mod den)) den) as [Heq | Hlt | Hgt].
    + destruct (Z.even (num / den)) eqn:Heven.
      * split; [lia |]. split; [nia |]. intros _. exact Heven.
      * split; [lia |]. split; [nia |]. intros _.
        rewrite Z.even_add, Heven. reflexivity.
    + split; [lia |]. split; [nia |]. intros Htie. exfalso. nia.
    + split; [lia |]. split; [nia |]. intros Htie. exfalso. nia.
Qed.

(** X14: The distance is printed as the hundredths nearest to its exact value,
    the even one when two are equally near: for a number with mantissa [m]
    and exponent [e] the text is that of an integer [h] of hundredths with
    [|h - 100 m 2^e| <= 1/2]. *)
Theorem distance_rounded_to_nearest_hundredth (x : float) (s : bool)
    (m : positive) (e : Z) :
  Prim2SF x = S754_finite s m e ->
  exists h,
    Fmt.format_2f x
    = (Fmt.sign s ++ Fmt.digits (h / 100) ++ "."
       ++ Fmt.two_digits (h mod 100))%string /\
    (0 <= h)%Z /\
    (2 * Z.abs (h * 2 ^ Z.max 0 (- e) - 100 * Z.pos m * 2 ^ Z.max 0 e)
     <= 2 ^ Z.max 0 (- e))%Z /\
    ((2 * Z.abs (h * 2 ^ Z.max 0 (- e) - 100 * Z.pos m * 2 ^ Z.max 0 e)
      = 2 ^ Z.max 0 (- e))%Z -> Z.even h = true).
Proof.
  intros Hx. exists (Fmt.hundredths m e).
  split; [unfold Fmt.format_2f; now rewrite Hx |].
  apply hundredths_nearest.
Qed.

Lemma distance_rounded_to_nearest_hundredth_witness :
  Prim2SF 0.125 = S754_finite false 4503599627370496 (-55) /\
  Fmt.format_2f 0.125 = "0.12"%string /\
  exists h,
    Fmt.format_2f 0.125
    = (Fmt.sign false ++ Fmt.digits (h / 100) ++ "."
       ++ Fmt.two_digits (h mod 100))%string /\
    (0 <= h)%Z /\
    (2 * Z.abs (h * 2 ^ Z.max 0 (- (-55))
                - 100 * Z.pos 4503599627370496 * 2 ^ Z.max 0 (-55))
     <= 2 ^ Z.max 0 (- (-55)))%Z /\
    ((2 * Z.abs (h * 2 ^ Z.max 0 (- (-55))
                 - 100 * Z.pos 4503599627370496 * 2 ^ Z.max 0 (-55))
      = 2 ^ Z.max 0 (- (-55)))%Z -> Z.even h = true).
Proof.
  split; [vm_compute; reflexivity |]. split; [vm_compute; reflexivity |].
  apply (distance_rounded_to_nearest_hundredth 0.125 false
           4503599627370496 (-55)).
  vm_compute. reflexivity.
Defined.

(** ** The angle converter, further *)

(** X15: A direction that is not a single character never negates: "South",
    " S" or the empty text leave the value as computed. *)
Theorem long_direction_not_negated (degrees minutes seconds : float)
    (direction : string) :
  String.length direction <> 1%nat ->
  dms_to_dd degrees minutes seconds direction
  = degrees + minutes / 60 + seconds / 3600.
Proof.
  intros Hlen. unfold dms_to_dd. rewrite direction_test.
  destruct direction as [| a [| b rest]]; try reflexivity.
  now contradiction Hlen.
Qed.

Lemma long_direction_not_negated_witness :
  String.length "South" <> 1%nat /\
  dms_to_dd 1 30 0 "South" = 1 + 30 / 60 + 0 / 3600.
Proof.
  split; [discriminate |].
  apply (long_direction_not_negated 1 30 0 "South"). discriminate.
Defined.

(** X16: The direction decides the sign and nothing else: whatever two codes are
    given, the two results have the same absolute value. *)
Theorem direction_changes_sign_only (degrees minutes seconds : float)
    (direction direction' : string) :
  abs (dms_to_dd degrees minutes seconds direction)
  = abs (dms_to_dd degrees minutes seconds direction').
Proof.
  unfold dms_to_dd.
  destruct (existsb (String.eqb direction) ["S"; "W"; "s"; "w"]%string),
           (existsb (String.eqb direction') ["S"; "W"; "s"; "w"]%string);
    now rewrite ?FloatMore.abs_opp.
Qed.

Lemma error_iff_no_map_witness :
  (([] : list coord) = [] \/ alpha_beta = []) /\
  snd (get_interactive_map_and_mrt_geojson chart_km [] alpha_beta) = None /\
  Str.starts_with "Error: "
    (fst (get_interactive_map_and_mrt_geojson chart_km [] alpha_beta)) = true /\
  ((Some (build_map triangle (center_of triangle)
            "BETA MRT STATION" (Some (1.31, 103.81))) = None
    <-> triangle = [] \/ alpha_beta = []) /\
   (Str.starts_with "Error: "
      "The nearest MRT station is: BETA MRT STATION (distance: 3.67 km)" = true
    <-> Some (build_map triangle (center_of triangle)
                "BETA MRT STATION" (Some (1.31, 103.81))) = None)).
Proof.
  assert (Hempty : ([] : list coord) = [] \/ alpha_beta = [])
    by (left; reflexivity).
  split; [exact Hempty |].
  destruct (proj1 (error_iff_no_map chart_km [] alpha_beta) Hempty)
    as [Hmap Htext].
  split; [exact Hmap |]. split; [exact Htext |].
  exact (proj2 (error_iff_no_map chart_km triangle alpha_beta) _ _
           triangle_call).
Defined.

(** A carriage return inside the cell is matched by the pattern and is not at
    an end for [strip]: it stays in the name. *)
Example carriage_return_kept :
  feature_records
    (sample_feature (PList [PFloat 103.8; PFloat 1.3])
       ("ORCHARD" ++ String "013"%char " MRT STATION"))
  = [(("ORCHARD" ++ String "013"%char " MRT STATION")%string,
      (PFloat 1.3, PFloat 103.8))].
Proof. vm_compute. reflexivity. Qed.
